(** * Legacy tensor type names: torch/csrc/utils/tensor_types.cpp

    A shallow embedding of the three entry points of the file
    ([options_to_string] / [type_to_string], [options_from_string] and
    [all_declared_types]) together with the properties stated about them.

    The file under verification leans on the tensor framework for its
    enumerations, its type registry and its default-type configuration.
    What the framework provides is either modelled from the specification
    (and marked so) or taken as a parameter of [Section Resolver]. *)

From Stdlib Require Import String Ascii List Bool Arith Lia.
From stdpp Require Import gmap strings list fin_maps.
Import ListNotations.

Local Open Scope list_scope.
Local Open Scope string_scope.

(* ===================================================================== *)
(** ** Enumerations of the framework *)
(* ===================================================================== *)

(** Modelled from the spec: the [Backend] enumeration (c10/core/Backend.h
    is outside this file).  The spec describes it as a
    fixed, closed set of compute/storage domains.  The switch of
    [backend_to_string] names eight of its enumerators; the others are the
    framework's remaining backends, all of which take the [default:]
    branch.  [NumOptions], the enumerator count, is not a backend and is
    left out. *)
Inductive Backend : Type :=
  | CPU | CUDA | HIP | FPGA | XPU
  | SparseCPU | SparseCUDA | SparseCsrCPU | SparseCsrCUDA | SparseHIP | SparseXPU
  | ORT | XLA | Vulkan | Metal
  | QuantizedCPU | QuantizedCUDA | QuantizedXPU
  | Undefined | MkldnnCPU | MLC | HPU.

(** Modelled from the spec: the [ScalarType] enumeration
    (c10/core/ScalarType.h is outside this file), in the
    order of the framework's canonical list
    AT_FORALL_SCALAR_TYPES_WITH_COMPLEX_AND_QINTS, followed by the
    undefined type.  The enumerator count [NumOptions] is left out. *)
Inductive ScalarType : Type :=
  | Byte | Char | Short | Int | Long | Half | Float | Double
  | ComplexHalf | ComplexFloat | ComplexDouble | Bool
  | QInt8 | QUInt8 | QInt32 | BFloat16 | QUInt4x2
  | UndefinedType.

#[global] Instance Backend_eq_dec : EqDecision Backend.
Proof. solve_decision. Defined.

#[global] Instance ScalarType_eq_dec : EqDecision ScalarType.
Proof. solve_decision. Defined.

(** The C++ [==] on enumerators, as a boolean. *)
Definition backend_eqb (a b : Backend) : bool := bool_decide (a = b).
Definition scalar_eqb (a b : ScalarType) : bool := bool_decide (a = b).

Definition all_backends : list Backend :=
  [ CPU; CUDA; HIP; FPGA; XPU;
    SparseCPU; SparseCUDA; SparseCsrCPU; SparseCsrCUDA; SparseHIP; SparseXPU;
    ORT; XLA; Vulkan; Metal;
    QuantizedCPU; QuantizedCUDA; QuantizedXPU;
    Undefined; MkldnnCPU; MLC; HPU ].

Definition all_scalar_types : list ScalarType :=
  [ Byte; Char; Short; Int; Long; Half; Float; Double;
    ComplexHalf; ComplexFloat; ComplexDouble; Bool;
    QInt8; QUInt8; QInt32; BFloat16; QUInt4x2; UndefinedType ].

(** Modelled from the spec: [toString(ScalarType)], the framework's
    "fixed textual name per scalar type": the enumerator's own name, and
    "UNKNOWN_SCALAR" for a value outside the canonical list. *)
Definition toString (t : ScalarType) : string :=
  match t with
  | Byte => "Byte" | Char => "Char" | Short => "Short" | Int => "Int"
  | Long => "Long" | Half => "Half" | Float => "Float" | Double => "Double"
  | ComplexHalf => "ComplexHalf" | ComplexFloat => "ComplexFloat"
  | ComplexDouble => "ComplexDouble" | Bool => "Bool"
  | QInt8 => "QInt8" | QUInt8 => "QUInt8" | QInt32 => "QInt32"
  | BFloat16 => "BFloat16" | QUInt4x2 => "QUInt4x2"
  | UndefinedType => "UNKNOWN_SCALAR"
  end.

(** Modelled from the spec: the text that streaming a [Backend] into an
    error message produces (ATen/Formatting.h, outside this
    file): the backend's identifier. *)
Definition backend_name (b : Backend) : string :=
  match b with
  | CPU => "CPU" | CUDA => "CUDA" | HIP => "HIP" | FPGA => "FPGA" | XPU => "XPU"
  | SparseCPU => "SparseCPU" | SparseCUDA => "SparseCUDA"
  | SparseCsrCPU => "SparseCsrCPU" | SparseCsrCUDA => "SparseCsrCUDA"
  | SparseHIP => "SparseHIP" | SparseXPU => "SparseXPU"
  | ORT => "ORT" | XLA => "XLA" | Vulkan => "Vulkan" | Metal => "Metal"
  | QuantizedCPU => "QuantizedCPU" | QuantizedCUDA => "QuantizedCUDA"
  | QuantizedXPU => "QuantizedXPU"
  | Undefined => "Undefined" | MkldnnCPU => "MkldnnCPU" | MLC => "MLC"
  | HPU => "HPU"
  end.

(* ===================================================================== *)
(** ** Type descriptors and option bundles *)
(* ===================================================================== *)

(** Modelled from the spec: [at::DeprecatedTypeProperties], the type
    descriptor (the class is declared outside this file): a
    "TypeKey, the pair (Backend, ScalarType)", of which the file reads
    [type.backend()] and [type.scalarType()]. *)
Record DeprecatedTypeProperties : Type := mkType {
  backend : Backend;
  scalarType : ScalarType
}.

(** Modelled from the spec: [caffe2::TypeMeta] (declared outside this
    file), the dtype of an options bundle, which
    [typeMetaToScalarType] turns into its scalar type. *)
Record TypeMeta : Type := scalarTypeToTypeMeta { typeMetaToScalarType : ScalarType }.

(** Modelled from the spec: [at::TensorOptions], "an options-like bundle
    that exposes both" a backend ([options.backend()]) and a dtype
    ([options.dtype()]). *)
Record TensorOptions : Type := mkOptions {
  options_backend : Backend;
  options_dtype : TypeMeta
}.

(** Modelled from the spec: [DeprecatedTypeProperties::options()], "the
    options matching that pair". *)
Definition options (t : DeprecatedTypeProperties) : TensorOptions :=
  {| options_backend := backend t;
     options_dtype := scalarTypeToTypeMeta (scalarType t) |}.

(** Modelled from the spec: [getDeprecatedTypeProperties], the registry
    "mapping (backend, scalar type) to a canonical type-properties
    object". *)
Definition getDeprecatedTypeProperties (b : Backend) (s : ScalarType)
  : DeprecatedTypeProperties := mkType b s.

#[global] Instance DeprecatedTypeProperties_eq_dec : EqDecision DeprecatedTypeProperties.
Proof. solve_decision. Defined.

(* ===================================================================== *)
(** ** Exceptions *)
(* ===================================================================== *)

(** Modelled from the spec: the two exceptions the file throws (their
    classes are declared outside this file), each with its
    message: the "unimplemented backend" error, a [c10::Error] raised by
    [AT_ERROR], and the "invalid type" error, a [torch::ValueError]. *)
Inductive exn : Type :=
  | c10_Error (msg : string)
  | ValueError (msg : string).

Inductive result (A : Type) : Type :=
  | Ok (a : A)
  | Throw (e : exn).
Arguments Ok {A} a.
Arguments Throw {A} e.

Definition result_bind {A B} (r : result A) (k : A -> result B) : result B :=
  match r with
  | Ok a => k a
  | Throw e => Throw e
  end.

(** Modelled from the spec: the framework's macro [AT_ERROR], here
    [AT_ERROR("Unimplemented backend ", backend)]: it raises the error
    with "a descriptive message naming the offending backend", the
    arguments streamed one after the other. *)
Definition AT_ERROR {A} (text : string) (b : Backend) : result A :=
  Throw (c10_Error (text ++ backend_name b)).

(* ===================================================================== *)
(** ** The name formatter *)
(* ===================================================================== *)

Definition backend_to_string (b : Backend) : result string :=
  match b with
  | CPU => Ok "torch"
  | CUDA => Ok "torch.cuda"
  | XPU => Ok "torch.xpu"
  | SparseCPU => Ok "torch.sparse"
  | SparseCUDA => Ok "torch.cuda.sparse"
  | SparseXPU => Ok "torch.xpu.sparse"
  | QuantizedCPU => Ok "torch.quantized"
  | HPU => Ok "torch.hpu"
  | _ => AT_ERROR "Unimplemented backend " b
  end.

(** [ss << backend_to_string(..) << "." << toString(..) << "Tensor"]. *)
Definition options_to_string (o : TensorOptions) : result string :=
  result_bind (backend_to_string (options_backend o)) (fun ns =>
  Ok (ns ++ "." ++ toString (typeMetaToScalarType (options_dtype o)) ++ "Tensor")).

Definition type_to_string (t : DeprecatedTypeProperties) : result string :=
  result_bind (backend_to_string (backend t)) (fun ns =>
  Ok (ns ++ "." ++ toString (scalarType t) ++ "Tensor")).


(* ===================================================================== *)
(** ** Strings as the resolver reads them *)
(* ===================================================================== *)

Definition NUL : ascii := "000"%char.

(** The character buffer of a [std::string]: its characters followed by
    the terminator. *)
Definition buffer (s : string) : string := s ++ String NUL EmptyString.

(** [str.c_str()] read as a C string: the characters before the first
    NUL of the buffer. *)
Fixpoint c_str (s : string) : string :=
  match s with
  | EmptyString => EmptyString
  | String c r => if Ascii.eqb c NUL then EmptyString else String c (c_str r)
  end.

(** Modelled from the spec: the message of a [torch::ValueError] built
    from a format and a C string (the constructor is outside this
    file); the error is "carrying the offending string": the format
    with its [%s] replaced by the argument. *)
Fixpoint format (fmt arg : string) : string :=
  match fmt with
  | EmptyString => EmptyString
  | String c rest =>
      match rest with
      | EmptyString => String c EmptyString
      | String d rest' =>
          if Ascii.eqb c "%" && Ascii.eqb d "s"
          then arg ++ format rest' arg
          else String c (format rest arg)
      end
  end.

(** [std::mismatch(first1, last1, first2)] with the first range a string
    [s1] and the second iterator walking the buffer [buf]:
    [while (first1 != last1 && *first1 == *first2) { ++first1; ++first2; }].
    The result is the position [first1] stops at, given as what is left of
    [s1] from there on ([EmptyString] is [last1]).  [None] stands for a
    read past the end of [buf], which the C++ leaves undefined. *)
Fixpoint mismatch (s1 buf : string) : option string :=
  match s1 with
  | EmptyString => Some EmptyString
  | String c1 r1 =>
      match buf with
      | EmptyString => None
      | String c2 r2 => if Ascii.eqb c1 c2 then mismatch r1 r2 else Some s1
      end
  end.

Definition cuda_prefix : string := "torch.cuda.".

(** [std::mismatch(cuda_prefix.begin(), cuda_prefix.end(), str.begin()).first
     == cuda_prefix.end()]. *)
Definition has_cuda_prefix (str : string) : bool :=
  match mismatch cuda_prefix (buffer str) with
  | Some EmptyString => true
  | _ => false
  end.

(* ===================================================================== *)
(** ** The function-local statics of the resolver *)
(* ===================================================================== *)

(** [std::unordered_map<std::string, at::DeprecatedTypeProperties*>]: the
    registry objects are unique per (backend, scalar type), so a pointer
    to one is identified with the descriptor itself. *)
Abbreviation type_map := (gmap string DeprecatedTypeProperties).

(** [map.emplace(key, value)]: inserts only when the key is absent. *)
Definition emplace (key : string) (value : DeprecatedTypeProperties)
    (m : type_map) : type_map :=
  match m !! key with
  | Some _ => m
  | None => <[key := value]> m
  end.

(** The static variables of [options_from_string]; a [std::once_flag] is
    [true] once a [call_once] on it has returned normally. *)
Record Statics : Type := mkStatics {
  cpu_once : bool;
  cuda_once : bool;
  cpu_map : type_map;
  cuda_map : type_map
}.

(** The statics at process start. *)
Definition initial : Statics :=
  {| cpu_once := false; cuda_once := false; cpu_map := ∅; cuda_map := ∅ |}.

Definition set_cpu_once (st : Statics) : Statics :=
  {| cpu_once := true; cuda_once := cuda_once st;
     cpu_map := cpu_map st; cuda_map := cuda_map st |}.

Definition set_cuda_once (st : Statics) : Statics :=
  {| cpu_once := cpu_once st; cuda_once := true;
     cpu_map := cpu_map st; cuda_map := cuda_map st |}.

Definition cpu_map_emplace (key : string) (value : DeprecatedTypeProperties)
    (st : Statics) : Statics :=
  {| cpu_once := cpu_once st; cuda_once := cuda_once st;
     cpu_map := emplace key value (cpu_map st); cuda_map := cuda_map st |}.

Definition cuda_map_emplace (key : string) (value : DeprecatedTypeProperties)
    (st : Statics) : Statics :=
  {| cpu_once := cpu_once st; cuda_once := cuda_once st;
     cpu_map := cpu_map st; cuda_map := emplace key value (cuda_map st) |}.

(** *** Computations over the statics that may throw

    A computation returns its outcome together with the statics it
    leaves behind; what was written before an exception stays written. *)
Definition M (A : Type) : Type := Statics -> result A * Statics.

Definition ret {A} (a : A) : M A := fun st => (Ok a, st).

Definition throw {A} (e : exn) : M A := fun st => (Throw e, st).

Definition bind {A B} (m : M A) (k : A -> M B) : M B :=
  fun st =>
    match m st with
    | (Ok a, st') => k a st'
    | (Throw e, st') => (Throw e, st')
    end.

Definition lift {A} (r : result A) : M A := fun st => (r, st).

Definition gets {A} (f : Statics -> A) : M A := fun st => (Ok (f st), st).

Definition modify (f : Statics -> Statics) : M unit := fun st => (Ok tt, f st).

Notation "x <- m ;; k" := (bind m (fun x => k))
  (at level 100, m at next level, right associativity).
Notation "m ;;; k" := (bind m (fun _ => k))
  (at level 100, right associativity).

(** [for (auto x : l) body(x);] *)
Fixpoint for_each {A} (l : list A) (body : A -> M unit) : M unit :=
  match l with
  | [] => ret tt
  | x :: r => body x ;;; for_each r body
  end.

(** [std::call_once(flag, body)]: the body runs when the flag is not set,
    and the flag is set when the body returns; a body that throws leaves
    the flag as it was and the exception propagates. *)
Definition call_once (flag : Statics -> bool) (set_flag : Statics -> Statics)
    (body : M unit) : M unit :=
  fun st => if flag st then (Ok tt, st) else (body ;;; modify set_flag) st.

(* ===================================================================== *)
(** ** The name resolver *)
(* ===================================================================== *)

(** Modelled from the spec: the default-type configuration of the
    framework, "process-wide mutable state, consulted but not mutated
    here", as the resolver reads it at call time through
    [torch::tensors::get_default_dispatch_key()] and
    [torch::tensors::get_default_scalar_type()]. *)
Record DefaultTypeConfig (DispatchKey : Type) : Type := mkDefault {
  get_default_dispatch_key : DispatchKey;
  get_default_scalar_type : ScalarType
}.
Arguments mkDefault {DispatchKey} _ _.
Arguments get_default_dispatch_key {DispatchKey} _.
Arguments get_default_scalar_type {DispatchKey} _.

Section Resolver.

(** What the framework provides and this file only uses:
    its dispatch keys with their conversion to a backend, and the two
    per-family enumerators of [autograd::VariableType]. *)
Context {DispatchKey : Type}.
Variable dispatchKeyToBackend : DispatchKey -> Backend.
Variable allCPUTypes : list DeprecatedTypeProperties.
Variable allCUDATypes : list DeprecatedTypeProperties.

(** The body of the [call_once] on [cuda_once]. *)
Definition cuda_init : M unit :=
  for_each allCUDATypes (fun type =>
    name <- lift (type_to_string type) ;;
    modify (cuda_map_emplace name type)).

(** The body of the [call_once] on [cpu_once]. *)
Definition cpu_init : M unit :=
  for_each allCPUTypes (fun type =>
    name <- lift (type_to_string type) ;;
    modify (cpu_map_emplace name type)).

Definition options_from_string (cfg : DefaultTypeConfig DispatchKey)
    (str : string) : M TensorOptions :=
  if String.eqb str "torch.Tensor" then
    let backend := dispatchKeyToBackend (get_default_dispatch_key cfg) in
    let scalar_type := get_default_scalar_type cfg in
    ret (options (getDeprecatedTypeProperties backend scalar_type))
  else
    map <- (if has_cuda_prefix str then
              call_once cuda_once set_cuda_once cuda_init ;;;
              gets cuda_map
            else
              call_once cpu_once set_cpu_once cpu_init ;;;
              gets cpu_map) ;;
    match map !! str with
    | None => throw (ValueError (format "invalid type: '%s'" (c_str str)))
    | Some type => ret (options type)
    end.

(** The statics a process can be in: those at its start, and those any
    call of the resolver leaves behind, whether it returns or throws. *)
Inductive reachable : Statics -> Prop :=
  | reachable_initial : reachable initial
  | reachable_call cfg str st :
      reachable st -> reachable (snd (options_from_string cfg str st)).

End Resolver.

(* ===================================================================== *)
(** ** The enumerator of declared types *)
(* ===================================================================== *)

(** Modelled from the spec: the expansion of the framework's macro
    AT_FORALL_SCALAR_TYPES_WITH_COMPLEX_EXCEPT_COMPLEX_HALF
    (c10/core/ScalarType.h is outside this file): "all
    scalar types in the framework's real + complex, excluding
    complex-half category", without the quantized integer types. *)
Definition AT_FORALL_SCALAR_TYPES_WITH_COMPLEX_EXCEPT_COMPLEX_HALF
  : list ScalarType :=
  [ Byte; Char; Short; Int; Long; Half; Float; Double;
    ComplexFloat; ComplexDouble; Bool; BFloat16 ].

(** The two nested loops of [all_declared_types] over given lists;
    [ret.emplace_back] appends at the end. *)
Definition declared_types_loop (backends : list Backend)
    (scalar_types : list ScalarType) : list (Backend * ScalarType) :=
  fold_left (fun ret backend =>
    fold_left (fun ret scalar_type =>
      if scalar_eqb scalar_type Bool
         && (backend_eqb backend SparseCUDA || backend_eqb backend SparseCPU)
      then ret
      else (ret ++ [(backend, scalar_type)])%list)
      scalar_types ret)
    backends [].

Definition all_declared_types : list (Backend * ScalarType) :=
  let backends := [CPU; CUDA; SparseCPU; SparseCUDA] in
  let scalar_types := AT_FORALL_SCALAR_TYPES_WITH_COMPLEX_EXCEPT_COMPLEX_HALF in
  declared_types_loop backends scalar_types.

(* ===================================================================== *)
(** ** Vocabulary of the statements *)
(* ===================================================================== *)

(** The backends the formatter has a namespace for. *)
Definition supported (b : Backend) : bool :=
  match b with
  | CPU | CUDA | XPU | SparseCPU | SparseCUDA | SparseXPU | QuantizedCPU | HPU => true
  | _ => false
  end.

(** The two backend families of the per-family enumerators. *)
Definition cpu_family (b : Backend) : bool :=
  match b with CPU | SparseCPU => true | _ => false end.

Definition cuda_family (b : Backend) : bool :=
  match b with CUDA | SparseCUDA => true | _ => false end.

(** A string without NUL characters. *)
Fixpoint nul_free (s : string) : bool :=
  match s with
  | EmptyString => true
  | String c r => negb (Ascii.eqb c NUL) && nul_free r
  end.

(** [msg] contains [s] verbatim. *)
Definition contains (msg s : string) : Prop :=
  exists pre post, msg = pre ++ s ++ post.

(** What a family registry holds once it is built from the enumerator's
    list [types]: each type under its formatted name, the first one
    winning when two share a name. *)
Definition registry_from (m : type_map) (types : list DeprecatedTypeProperties)
  : type_map :=
  fold_left (fun m type =>
    match type_to_string type with
    | Ok name => emplace name type m
    | Throw _ => m
    end) types m.

Definition registry (types : list DeprecatedTypeProperties) : type_map :=
  registry_from ∅ types.

(** Looking [str] up in a built registry: the last step of the resolver. *)
Definition find_options (m : type_map) (str : string) : result TensorOptions :=
  match m !! str with
  | None => Throw (ValueError (format "invalid type: '%s'" (c_str str)))
  | Some type => Ok (options type)
  end.

(** The statics with one family's registry built, the other family's
    flag and map as they are in [st]. *)
Definition cuda_built (allCUDATypes : list DeprecatedTypeProperties)
    (st : Statics) : Statics :=
  {| cpu_once := cpu_once st; cuda_once := true;
     cpu_map := cpu_map st; cuda_map := registry allCUDATypes |}.

Definition cpu_built (allCPUTypes : list DeprecatedTypeProperties)
    (st : Statics) : Statics :=
  {| cpu_once := true; cuda_once := cuda_once st;
     cpu_map := registry allCPUTypes; cuda_map := cuda_map st |}.

(** Each flag tells whether its registry is still empty or fully built. *)
Definition consistent (allCPUTypes allCUDATypes : list DeprecatedTypeProperties)
    (st : Statics) : Prop :=
  cpu_map st = (if cpu_once st then registry allCPUTypes else ∅)
  /\ cuda_map st = (if cuda_once st then registry allCUDATypes else ∅).

(** The sequence the spec describes for the enumerator: backends in list
    order, for each the scalar types in list order, the sparse boolean
    pairs skipped. *)
Definition skipped (p : Backend * ScalarType) : bool :=
  match p with
  | (SparseCPU, Bool) | (SparseCUDA, Bool) => true
  | _ => false
  end.

Definition declared_types_spec (backends : list Backend)
    (scalar_types : list ScalarType) : list (Backend * ScalarType) :=
  List.filter (fun p => negb (skipped p))
    (flat_map (fun b => map (fun s => (b, s)) scalar_types) backends).

(** Modelled from the spec: the framework's enumerators, "returning every
    concrete type object for that family": every scalar type on each
    backend of the family, backend by backend.  They instantiate the
    parameters of the resolver in the examples. *)
Definition allTypesForBackends (backends : list Backend)
  : list DeprecatedTypeProperties :=
  flat_map (fun b => map (getDeprecatedTypeProperties b) all_scalar_types) backends.

Definition framework_allCPUTypes : list DeprecatedTypeProperties :=
  allTypesForBackends [CPU; SparseCPU].

Definition framework_allCUDATypes : list DeprecatedTypeProperties :=
  allTypesForBackends [CUDA; SparseCUDA].

(** A framework whose dispatch keys are the backends themselves; the
    resolver of the examples runs on it. *)
Definition example_resolver (cfg : DefaultTypeConfig Backend) (str : string)
  : M TensorOptions :=
  options_from_string (fun key => key) framework_allCPUTypes
    framework_allCUDATypes cfg str.

Definition supported_types : list DeprecatedTypeProperties :=
  allTypesForBackends (List.filter supported all_backends).

(** Two types are formatted to the same name. *)
Definition same_name (t t' : DeprecatedTypeProperties) : bool :=
  match type_to_string t, type_to_string t' with
  | Ok n, Ok n' => String.eqb n n'
  | _, _ => false
  end.

(** No two different types of a list share a name. *)
Definition names_distinct (l : list DeprecatedTypeProperties) : bool :=
  forallb (fun t =>
    forallb (fun t' => implb (same_name t t') (bool_decide (t = t'))) l) l.

(** The claim that a failing call of the resolver [run] on [str] carries
    [str] verbatim in an invalid-type error and leaves both registries as
    they were in [st]. *)
Definition fails_leaving_registries (run : M TensorOptions) (str : string)
    (st : Statics) : Prop :=
  (exists msg, fst (run st) = Throw (ValueError msg) /\ contains msg str)
  /\ cpu_map (snd (run st)) = cpu_map st
  /\ cuda_map (snd (run st)) = cuda_map st.

(** The once flag of the family that the prefix test selects for [str]. *)
Definition selected_once (str : string) (st : Statics) : bool :=
  if String.prefix cuda_prefix str then cuda_once st else cpu_once st.

(** The registry of the family that the prefix test selects for [str]. *)
Definition selected_registry (allCPUTypes allCUDATypes : list DeprecatedTypeProperties)
    (str : string) : type_map :=
  if String.prefix cuda_prefix str
  then registry allCUDATypes else registry allCPUTypes.

(** The enumerator whose types the registry selected for [str] is built
    from. *)
Definition selected_types (allCPUTypes allCUDATypes : list DeprecatedTypeProperties)
    (str : string) : list DeprecatedTypeProperties :=
  if String.prefix cuda_prefix str then allCUDATypes else allCPUTypes.

(** The type descriptor of a pair that [all_declared_types] returns. *)
Definition declared_type (p : Backend * ScalarType) : DeprecatedTypeProperties :=
  getDeprecatedTypeProperties (fst p) (snd p).

(* ===================================================================== *)
(** ** Examples of the specification *)
(* ===================================================================== *)

Example type_to_string_cpu_float :
  type_to_string (mkType CPU Float) = Ok "torch.FloatTensor".
Proof. reflexivity. Qed.

Example type_to_string_cuda_double :
  type_to_string (mkType CUDA Double) = Ok "torch.cuda.DoubleTensor".
Proof. reflexivity. Qed.

Example has_cuda_prefix_cuda : has_cuda_prefix "torch.cuda.FloatTensor" = true.
Proof. reflexivity. Qed.

Example has_cuda_prefix_short : has_cuda_prefix "torch.cuda" = false.
Proof. reflexivity. Qed.

Example has_cuda_prefix_sparse : has_cuda_prefix "torch.sparse.LongTensor" = false.
Proof. reflexivity. Qed.

Example c_str_stops_at_NUL :
  c_str ("torch." ++ String NUL "FloatTensor") = "torch.".
Proof. reflexivity. Qed.

Example resolve_sparse_long :
  fst (example_resolver (mkDefault CPU Float) "torch.sparse.LongTensor" initial)
  = Ok (options (mkType SparseCPU Long)).
Proof. vm_compute. reflexivity. Qed.

Example resolve_unknown_name :
  fst (example_resolver (mkDefault CPU Float) "torch.bogus.NotARealTensor" initial)
  = Throw (ValueError "invalid type: 'torch.bogus.NotARealTensor'").
Proof. vm_compute. reflexivity. Qed.

(* ===================================================================== *)
(** ** Strings: the prefix test and the C string *)
(* ===================================================================== *)

(** Against a prefix without NUL characters the walk stops inside the
    buffer of the string, at the latest on its terminator, and it reaches
    the end of the prefix exactly when the string starts with it. *)
Lemma mismatch_buffer_prefix (p s : string) :
  nul_free p = true ->
  exists rest, mismatch p (buffer s) = Some rest
    /\ (rest = EmptyString <-> String.prefix p s = true).
Proof.
  revert s. induction p as [|c p IH]; intros s Hp.
  - exists EmptyString. destruct s; simpl; tauto.
  - simpl in Hp. apply andb_prop in Hp as [Hc Hp].
    apply negb_true_iff in Hc.
    destruct s as [|d s]; simpl.
    + rewrite Hc. eexists. split; [reflexivity|]. split; discriminate.
    + destruct (Ascii.eqb_spec c d) as [->|Hne].
      * destruct (Ascii.ascii_dec d d) as [_|Hd]; [|congruence].
        apply IH; assumption.
      * destruct (Ascii.ascii_dec c d) as [Hd|_]; [congruence|].
        eexists. split; [reflexivity|]. split; discriminate.
Qed.

(** The prefix test of the resolver never reads past the terminator. *)
Lemma cuda_prefix_test_in_bounds (str : string) :
  mismatch cuda_prefix (buffer str) <> None.
Proof.
  destruct (mismatch_buffer_prefix cuda_prefix str eq_refl) as (rest & Hrest & _).
  congruence.
Qed.

(** The iterator test of the resolver is the prefix test. *)
Lemma has_cuda_prefix_prefix (str : string) :
  has_cuda_prefix str = String.prefix cuda_prefix str.
Proof.
  unfold has_cuda_prefix.
  destruct (mismatch_buffer_prefix cuda_prefix str eq_refl) as (rest & Hrest & Hiff).
  rewrite Hrest.
  destruct (String.prefix cuda_prefix str).
  - rewrite (proj2 Hiff eq_refl). reflexivity.
  - destruct rest; [|reflexivity].
    pose proof (proj1 Hiff eq_refl). discriminate.
Qed.

Lemma c_str_nul_free (s : string) : nul_free s = true -> c_str s = s.
Proof.
  induction s as [|c s IH]; simpl; intros H; [reflexivity|].
  apply andb_prop in H as [Hc Hs]. apply negb_true_iff in Hc.
  rewrite Hc, IH by assumption. reflexivity.
Qed.

Lemma append_cons (c : ascii) (s t : string) :
  String c s ++ t = String c (s ++ t).
Proof. reflexivity. Qed.

Lemma append_empty_r (s : string) : s ++ "" = s.
Proof.
  induction s as [|c s IH]; [reflexivity|].
  rewrite append_cons, IH. reflexivity.
Qed.

Lemma list_ascii_of_string_app (a b : string) :
  list_ascii_of_string (a ++ b)
  = (list_ascii_of_string a ++ list_ascii_of_string b)%list.
Proof.
  induction a as [|c a IH]; [reflexivity|].
  rewrite append_cons. simpl. rewrite IH. reflexivity.
Qed.

(** A character of a contained string is a character of the container. *)
Lemma contains_In (msg s : string) (c : ascii) :
  contains msg s ->
  In c (list_ascii_of_string s) -> In c (list_ascii_of_string msg).
Proof.
  intros (pre & post & ->) Hc. rewrite !list_ascii_of_string_app.
  apply in_or_app. right. apply in_or_app. left. exact Hc.
Qed.

(* ===================================================================== *)
(** ** The formatter *)
(* ===================================================================== *)

Lemma backend_to_string_unsupported (b : Backend) :
  supported b = false ->
  backend_to_string b = Throw (c10_Error ("Unimplemented backend " ++ backend_name b)).
Proof. destruct b; simpl; intros H; try discriminate; reflexivity. Qed.

(** C2: on each of the eight supported backends and for every scalar
    type, both entry points of the formatter return exactly the backend's
    namespace, a dot, the scalar type's name and "Tensor"; the namespace
    is "torch" for CPU, "torch.cuda" for CUDA, "torch.xpu" for XPU,
    "torch.sparse" for SparseCPU, "torch.cuda.sparse" for SparseCUDA,
    "torch.xpu.sparse" for SparseXPU, "torch.quantized" for QuantizedCPU
    and "torch.hpu" for HPU.  (CPU, Float) formats to "torch.FloatTensor". *)
Theorem formatter_namespace_mapping :
  let formats b ns := forall s : ScalarType,
    type_to_string (mkType b s) = Ok (ns ++ "." ++ toString s ++ "Tensor")
    /\ options_to_string (mkOptions b (scalarTypeToTypeMeta s))
       = Ok (ns ++ "." ++ toString s ++ "Tensor") in
  formats CPU "torch"
  /\ formats CUDA "torch.cuda"
  /\ formats XPU "torch.xpu"
  /\ formats SparseCPU "torch.sparse"
  /\ formats SparseCUDA "torch.cuda.sparse"
  /\ formats SparseXPU "torch.xpu.sparse"
  /\ formats QuantizedCPU "torch.quantized"
  /\ formats HPU "torch.hpu"
  /\ type_to_string (mkType CPU Float) = Ok "torch.FloatTensor"
  /\ options_to_string (mkOptions CPU (scalarTypeToTypeMeta Float))
     = Ok "torch.FloatTensor".
Proof.
  cbv zeta. repeat split.
Qed.

(** C7: for every backend outside the eight supported ones the formatter
    raises the framework's error with the message "Unimplemented backend "
    followed by the backend's name, at [backend_to_string] and so at both
    entry points, whatever the scalar type; no string is returned. *)
Theorem formatter_unimplemented_backend (b : Backend) (s : ScalarType) :
  supported b = false ->
  let e := c10_Error ("Unimplemented backend " ++ backend_name b) in
  backend_to_string b = Throw e
  /\ type_to_string (mkType b s) = Throw e
  /\ options_to_string (mkOptions b (scalarTypeToTypeMeta s)) = Throw e
  /\ contains ("Unimplemented backend " ++ backend_name b) (backend_name b).
Proof.
  intros H e. subst e.
  unfold type_to_string, options_to_string. simpl.
  rewrite (backend_to_string_unsupported b H). simpl.
  repeat split.
  exists "Unimplemented backend ", "". rewrite append_empty_r. reflexivity.
Qed.

(** C9: the two entry points of the formatter agree: an options bundle
    and a type descriptor with the same backend and the same scalar type
    are formatted alike, to the same string or to the same error. *)
Theorem options_to_string_type_to_string (o : TensorOptions)
    (t : DeprecatedTypeProperties) :
  options_backend o = backend t ->
  typeMetaToScalarType (options_dtype o) = scalarType t ->
  options_to_string o = type_to_string t.
Proof.
  intros Hb Hs. unfold options_to_string, type_to_string.
  rewrite Hb, Hs. reflexivity.
Qed.

Lemma options_to_string_type_to_string_witness :
  options_to_string (mkOptions SparseCUDA (scalarTypeToTypeMeta Half))
  = type_to_string (mkType SparseCUDA Half)
  /\ type_to_string (mkType SparseCUDA Half) = Ok "torch.cuda.sparse.HalfTensor".
Proof.
  split.
  - apply options_to_string_type_to_string; reflexivity.
  - reflexivity.
Defined.

Lemma formatter_unimplemented_backend_witness :
  backend_to_string HIP = Throw (c10_Error "Unimplemented backend HIP")
  /\ type_to_string (mkType HIP Float) = Throw (c10_Error "Unimplemented backend HIP").
Proof.
  pose proof (formatter_unimplemented_backend HIP Float eq_refl) as H.
  cbv zeta in H. split; apply H.
Defined.

(* ===================================================================== *)
(** ** The enumerator of declared types *)
(* ===================================================================== *)

Lemma skip_test_skipped (b : Backend) (s : ScalarType) :
  scalar_eqb s Bool && (backend_eqb b SparseCUDA || backend_eqb b SparseCPU)
  = skipped (b, s).
Proof. destruct b, s; reflexivity. Qed.

Lemma inner_loop_filter (b : Backend) (scalar_types : list ScalarType)
    (acc : list (Backend * ScalarType)) :
  fold_left (fun ret scalar_type =>
      if scalar_eqb scalar_type Bool
         && (backend_eqb b SparseCUDA || backend_eqb b SparseCPU)
      then ret
      else (ret ++ [(b, scalar_type)])%list) scalar_types acc
  = (acc ++ List.filter (fun p => negb (skipped p))
              (map (fun s => (b, s)) scalar_types))%list.
Proof.
  revert acc.
  induction scalar_types as [|s l IH]; intros acc; cbn [fold_left map List.filter].
  - rewrite app_nil_r. reflexivity.
  - rewrite IH, skip_test_skipped.
    destruct (skipped (b, s)); cbn [negb]; [reflexivity|].
    rewrite <- app_assoc. reflexivity.
Qed.

Lemma filter_app_list {A} (f : A -> bool) (l1 l2 : list A) :
  List.filter f (l1 ++ l2)%list = (List.filter f l1 ++ List.filter f l2)%list.
Proof.
  induction l1 as [|x l1 IH]; simpl; [reflexivity|].
  rewrite IH. destruct (f x); reflexivity.
Qed.

Lemma outer_loop_filter (backends : list Backend)
    (scalar_types : list ScalarType) (acc : list (Backend * ScalarType)) :
  fold_left (fun ret backend =>
    fold_left (fun ret scalar_type =>
      if scalar_eqb scalar_type Bool
         && (backend_eqb backend SparseCUDA || backend_eqb backend SparseCPU)
      then ret
      else (ret ++ [(backend, scalar_type)])%list)
      scalar_types ret)
    backends acc
  = (acc ++ declared_types_spec backends scalar_types)%list.
Proof.
  unfold declared_types_spec. revert acc.
  induction backends as [|b l IH]; intros acc; cbn [fold_left flat_map].
  - rewrite app_nil_r. reflexivity.
  - rewrite inner_loop_filter, IH, filter_app_list, app_assoc. reflexivity.
Qed.

(** The loops compute the sequence of the spec, whatever the two lists. *)
Lemma declared_types_loop_spec (backends : list Backend)
    (scalar_types : list ScalarType) :
  declared_types_loop backends scalar_types
  = declared_types_spec backends scalar_types.
Proof. unfold declared_types_loop. apply outer_loop_filter. Qed.

Lemma skipped_In_spec (backends : list Backend) (scalar_types : list ScalarType)
    (p : Backend * ScalarType) :
  skipped p = true -> ~ In p (declared_types_spec backends scalar_types).
Proof.
  intros Hp Hin. unfold declared_types_spec in Hin.
  apply List.filter_In in Hin as [_ Hin]. rewrite Hp in Hin. discriminate.
Qed.

Lemma skipped_sparse_bool (b : Backend) (s : ScalarType) :
  skipped (b, s) = skipped (b, Bool) && scalar_eqb s Bool.
Proof. destruct b, s; reflexivity. Qed.

Lemma kept_length (b : Backend) (scalar_types : list ScalarType) :
  length (List.filter (fun p => negb (skipped p))
            (map (fun s => (b, s)) scalar_types))
  = if skipped (b, Bool)
    then length scalar_types - count_occ ScalarType_eq_dec scalar_types Bool
    else length scalar_types.
Proof.
  induction scalar_types as [|s l IH]; cbn [map List.filter length].
  - destruct (skipped (b, Bool)); reflexivity.
  - rewrite (skipped_sparse_bool b s). unfold scalar_eqb.
    pose proof (count_occ_bound ScalarType_eq_dec Bool l) as Hle.
    destruct (skipped (b, Bool)); cbn [andb negb].
    + destruct (decide (s = Bool)) as [Hs|Hs].
      * rewrite bool_decide_eq_true_2 by assumption. cbn [negb].
        rewrite (count_occ_cons_eq ScalarType_eq_dec l Hs), IH. lia.
      * rewrite bool_decide_eq_false_2 by assumption. cbn [negb length].
        rewrite (count_occ_cons_neq ScalarType_eq_dec l Hs), IH. lia.
    + cbn [length]. rewrite IH. reflexivity.
Qed.

(** The length of the enumeration over the four backends of the source,
    for any scalar-type list that names [Bool] once. *)
Lemma declared_types_length (scalar_types : list ScalarType) :
  count_occ ScalarType_eq_dec scalar_types Bool = 1 ->
  length (declared_types_loop [CPU; CUDA; SparseCPU; SparseCUDA] scalar_types)
  = 4 * length scalar_types - 2.
Proof.
  intros Hb. rewrite declared_types_loop_spec. unfold declared_types_spec.
  cbn [flat_map]. rewrite !filter_app_list, !length_app, !kept_length.
  cbn [skipped List.filter length]. rewrite Hb.
  pose proof (count_occ_bound ScalarType_eq_dec Bool scalar_types). lia.
Qed.

(** C4: [all_declared_types] is the sequence obtained by going through
    the backends CPU, CUDA, SparseCPU, SparseCUDA in this order and, for
    each, through the scalar-type list in list order, skipping
    (SparseCPU, Bool) and (SparseCUDA, Bool); it contains neither of these
    pairs and its length is four times the length of the scalar-type list
    minus two.  The enumerator takes no argument and reads no state, so
    every call returns this one sequence. *)
Theorem all_declared_types_sequence :
  all_declared_types
  = declared_types_spec [CPU; CUDA; SparseCPU; SparseCUDA]
      AT_FORALL_SCALAR_TYPES_WITH_COMPLEX_EXCEPT_COMPLEX_HALF
  /\ ~ In (SparseCPU, Bool) all_declared_types
  /\ ~ In (SparseCUDA, Bool) all_declared_types
  /\ length all_declared_types
     = 4 * length AT_FORALL_SCALAR_TYPES_WITH_COMPLEX_EXCEPT_COMPLEX_HALF - 2.
Proof.
  unfold all_declared_types. cbv zeta.
  split; [apply declared_types_loop_spec|].
  rewrite declared_types_loop_spec.
  split; [apply skipped_In_spec; reflexivity|].
  split; [apply skipped_In_spec; reflexivity|].
  rewrite <- declared_types_loop_spec.
  apply declared_types_length. reflexivity.
Qed.

(* ===================================================================== *)
(** ** Names of the types of the two families *)
(* ===================================================================== *)

Lemma type_to_string_Ok_supported (t : DeprecatedTypeProperties) (name : string) :
  type_to_string t = Ok name -> In t supported_types.
Proof.
  destruct t as [b s]. intros H.
  assert (Hb : supported b = true).
  { destruct b; try reflexivity; discriminate H. }
  unfold supported_types, allTypesForBackends.
  apply in_flat_map. exists b. split.
  - apply List.filter_In. split; [|exact Hb].
    destruct b; try discriminate Hb; vm_compute; tauto.
  - apply in_map. destruct s; vm_compute; tauto.
Qed.

Lemma supported_types_names_distinct : names_distinct supported_types = true.
Proof. vm_compute. reflexivity. Qed.

(** The formatter is injective: a name comes from one type only. *)
Lemma type_to_string_inj (t t' : DeprecatedTypeProperties) (name : string) :
  type_to_string t = Ok name -> type_to_string t' = Ok name -> t = t'.
Proof.
  intros Ht Ht'.
  pose proof supported_types_names_distinct as Hd.
  unfold names_distinct in Hd.
  rewrite forallb_forall in Hd.
  specialize (Hd t (type_to_string_Ok_supported t name Ht)).
  rewrite forallb_forall in Hd.
  specialize (Hd t' (type_to_string_Ok_supported t' name Ht')).
  unfold same_name in Hd. rewrite Ht, Ht', String.eqb_refl in Hd.
  simpl in Hd. apply bool_decide_eq_true_1 in Hd. exact Hd.
Qed.

(** A type of the CPU family has a name, which is not the sentinel and
    does not start with the CUDA prefix. *)
Lemma cpu_family_name (t : DeprecatedTypeProperties) :
  cpu_family (backend t) = true ->
  exists name, type_to_string t = Ok name
    /\ String.eqb name "torch.Tensor" = false
    /\ has_cuda_prefix name = false.
Proof.
  destruct t as [b s]. simpl. intros Hb.
  destruct b; try discriminate Hb;
    destruct s; eexists; repeat split.
Qed.

(** A type of the CUDA family has a name, which starts with the CUDA
    prefix. *)
Lemma cuda_family_name (t : DeprecatedTypeProperties) :
  cuda_family (backend t) = true ->
  exists name, type_to_string t = Ok name
    /\ String.eqb name "torch.Tensor" = false
    /\ has_cuda_prefix name = true.
Proof.
  destruct t as [b s]. simpl. intros Hb.
  destruct b; try discriminate Hb;
    destruct s; eexists; repeat split.
Qed.

(* ===================================================================== *)
(** ** The registry a [call_once] body builds *)
(* ===================================================================== *)

Lemma emplace_lookup_present (key : string) (value : DeprecatedTypeProperties)
    (m : type_map) (k : string) (t : DeprecatedTypeProperties) :
  m !! k = Some t -> emplace key value m !! k = Some t.
Proof.
  intros Hk. unfold emplace.
  destruct (m !! key) as [v|] eqn:Hkey; [exact Hk|].
  rewrite lookup_insert_ne; [exact Hk|]. congruence.
Qed.

Lemma emplace_lookup_Some (key : string) (value : DeprecatedTypeProperties)
    (m : type_map) (k : string) (t : DeprecatedTypeProperties) :
  emplace key value m !! k = Some t ->
  m !! k = Some t \/ (k = key /\ t = value).
Proof.
  unfold emplace. destruct (m !! key) as [v|] eqn:Hkey; [auto|].
  destruct (decide (key = k)) as [->|Hne].
  - rewrite lookup_insert_eq. intros [= <-]. auto.
  - rewrite lookup_insert_ne by exact Hne. auto.
Qed.

Lemma emplace_lookup_key (key : string) (value : DeprecatedTypeProperties)
    (m : type_map) :
  is_Some (emplace key value m !! key).
Proof.
  unfold emplace. destruct (m !! key) as [v|] eqn:Hkey.
  - rewrite Hkey. eauto.
  - rewrite lookup_insert_eq. eauto.
Qed.

(** An entry, once present, stays as it is while the registry is built. *)
Lemma registry_from_present (types : list DeprecatedTypeProperties) (m : type_map)
    (k : string) (t : DeprecatedTypeProperties) :
  m !! k = Some t -> registry_from m types !! k = Some t.
Proof.
  revert m. induction types as [|x l IH]; intros m Hk; [exact Hk|].
  cbn [registry_from fold_left]. apply IH.
  destruct (type_to_string x); [|exact Hk].
  apply emplace_lookup_present. exact Hk.
Qed.

(** An entry of the built registry was there before or is a listed type
    under its own name. *)
Lemma registry_from_lookup_Some (types : list DeprecatedTypeProperties)
    (m : type_map) (k : string) (t : DeprecatedTypeProperties) :
  registry_from m types !! k = Some t ->
  m !! k = Some t \/ (In t types /\ type_to_string t = Ok k).
Proof.
  revert m. induction types as [|x l IH]; intros m Hk; [left; exact Hk|].
  cbn [registry_from fold_left] in Hk. apply IH in Hk as [Hk|[Hin Hn]].
  - destruct (type_to_string x) as [n|e] eqn:Hx; [|left; exact Hk].
    apply emplace_lookup_Some in Hk as [Hk|[-> ->]]; [left; exact Hk|].
    right. split; [left; reflexivity | exact Hx].
  - right. split; [right; exact Hin | exact Hn].
Qed.

(** Every listed type that has a name has an entry under that name. *)
Lemma registry_from_lookup_In (types : list DeprecatedTypeProperties)
    (m : type_map) (k : string) (t : DeprecatedTypeProperties) :
  In t types -> type_to_string t = Ok k ->
  is_Some (registry_from m types !! k).
Proof.
  revert m. induction types as [|x l IH]; intros m Hin Hn; [destruct Hin|].
  cbn [registry_from fold_left]. destruct Hin as [->|Hin].
  - rewrite Hn.
    destruct (emplace_lookup_key k t m) as [v Hv].
    exists v. apply registry_from_present. exact Hv.
  - apply IH; assumption.
Qed.

(** The registry maps the name of each listed type to that type. *)
Lemma registry_lookup_type (types : list DeprecatedTypeProperties)
    (t : DeprecatedTypeProperties) (name : string) :
  In t types -> type_to_string t = Ok name ->
  registry types !! name = Some t.
Proof.
  intros Hin Hn. unfold registry.
  destruct (registry_from_lookup_In types ∅ name t Hin Hn) as [t' Ht'].
  rewrite Ht'. f_equal.
  apply registry_from_lookup_Some in Ht' as [Hempty|[_ Hn']].
  - rewrite lookup_empty in Hempty. discriminate.
  - exact (type_to_string_inj t' t name Hn' Hn).
Qed.

(* ===================================================================== *)
(** ** The resolver *)
(* ===================================================================== *)

Section ResolverProperties.

Context {DispatchKey : Type}.
Variable dispatchKeyToBackend : DispatchKey -> Backend.
Variable allCPUTypes : list DeprecatedTypeProperties.
Variable allCUDATypes : list DeprecatedTypeProperties.

Local Abbreviation resolve :=
  (options_from_string dispatchKeyToBackend allCPUTypes allCUDATypes).
Local Abbreviation reachable_statics :=
  (reachable dispatchKeyToBackend allCPUTypes allCUDATypes).
Local Abbreviation default_type cfg :=
  (getDeprecatedTypeProperties
     (dispatchKeyToBackend (get_default_dispatch_key cfg))
     (get_default_scalar_type cfg)).

(** The sentinel is answered from the default configuration alone. *)
Lemma options_from_string_sentinel (cfg : DefaultTypeConfig DispatchKey)
    (st : Statics) :
  resolve cfg "torch.Tensor" st = (Ok (options (default_type cfg)), st).
Proof. reflexivity. Qed.

(** C10: for a string other than "torch.Tensor" the resolver does the
    same under any two default configurations: the same outcome, options
    or error, and the same statics left behind. *)
Theorem options_from_string_ignores_default
    (cfg1 cfg2 : DefaultTypeConfig DispatchKey) (str : string) (st : Statics) :
  str <> "torch.Tensor" ->
  resolve cfg1 str st = resolve cfg2 str st.
Proof.
  intros Hne. unfold options_from_string.
  apply String.eqb_neq in Hne. rewrite Hne. reflexivity.
Qed.

(** *** The two [call_once] bodies *)

Lemma cpu_loop_registry (types : list DeprecatedTypeProperties) (st : Statics) :
  (forall t, In t types -> exists name, type_to_string t = Ok name) ->
  for_each types (fun type =>
      name <- lift (type_to_string type) ;;
      modify (cpu_map_emplace name type)) st
  = (Ok tt, {| cpu_once := cpu_once st; cuda_once := cuda_once st;
               cpu_map := registry_from (cpu_map st) types;
               cuda_map := cuda_map st |}).
Proof.
  revert st. induction types as [|x l IH]; intros st Hnames.
  - destruct st; reflexivity.
  - destruct (Hnames x (or_introl eq_refl)) as [name Hname].
    cbn [for_each registry_from fold_left]. unfold bind at 1 2, lift, modify.
    rewrite Hname, IH by (intros t Ht; apply Hnames; right; exact Ht).
    reflexivity.
Qed.

Lemma cuda_loop_registry (types : list DeprecatedTypeProperties) (st : Statics) :
  (forall t, In t types -> exists name, type_to_string t = Ok name) ->
  for_each types (fun type =>
      name <- lift (type_to_string type) ;;
      modify (cuda_map_emplace name type)) st
  = (Ok tt, {| cpu_once := cpu_once st; cuda_once := cuda_once st;
               cpu_map := cpu_map st;
               cuda_map := registry_from (cuda_map st) types |}).
Proof.
  revert st. induction types as [|x l IH]; intros st Hnames.
  - destruct st; reflexivity.
  - destruct (Hnames x (or_introl eq_refl)) as [name Hname].
    cbn [for_each registry_from fold_left]. unfold bind at 1 2, lift, modify.
    rewrite Hname, IH by (intros t Ht; apply Hnames; right; exact Ht).
    reflexivity.
Qed.

(** *** With enumerators that list types of their own family *)

Hypothesis allCPUTypes_family :
  forall t, In t allCPUTypes -> cpu_family (backend t) = true.
Hypothesis allCUDATypes_family :
  forall t, In t allCUDATypes -> cuda_family (backend t) = true.

Lemma allCPUTypes_named (t : DeprecatedTypeProperties) :
  In t allCPUTypes -> exists name, type_to_string t = Ok name.
Proof.
  intros Ht. destruct (cpu_family_name t (allCPUTypes_family t Ht)) as (n & Hn & _).
  eauto.
Qed.

Lemma allCUDATypes_named (t : DeprecatedTypeProperties) :
  In t allCUDATypes -> exists name, type_to_string t = Ok name.
Proof.
  intros Ht. destruct (cuda_family_name t (allCUDATypes_family t Ht)) as (n & Hn & _).
  eauto.
Qed.

(** What a call on a string other than the sentinel does in consistent
    statics: it builds the registry of the family the prefix test
    selects, unless that is built already, and looks the string up
    there. *)
Lemma options_from_string_lookup (cfg : DefaultTypeConfig DispatchKey)
    (str : string) (st : Statics) :
  consistent allCPUTypes allCUDATypes st ->
  str <> "torch.Tensor" ->
  resolve cfg str st
  = if String.prefix cuda_prefix str
    then (find_options (registry allCUDATypes) str, cuda_built allCUDATypes st)
    else (find_options (registry allCPUTypes) str, cpu_built allCPUTypes st).
Proof.
  intros [Hcpu Hcuda] Hne. unfold options_from_string.
  apply String.eqb_neq in Hne. rewrite Hne, has_cuda_prefix_prefix.
  destruct (String.prefix cuda_prefix str).
  - unfold bind at 1 2, call_once.
    destruct (cuda_once st) eqn:Hflag.
    + assert (Hst : cuda_built allCUDATypes st = st).
      { unfold cuda_built. rewrite <- Hcuda, <- Hflag. destruct st; reflexivity. }
      rewrite Hst. unfold gets, find_options, throw, ret. rewrite Hcuda.
      destruct (registry allCUDATypes !! str); reflexivity.
    + unfold bind at 1, cuda_init.
      rewrite cuda_loop_registry by exact allCUDATypes_named.
      unfold modify, gets, set_cuda_once, find_options, cuda_built, registry,
        throw, ret.
      cbn [cuda_map cpu_map cpu_once cuda_once]. rewrite Hcuda.
      destruct (registry_from ∅ allCUDATypes !! str); reflexivity.
  - unfold bind at 1 2, call_once.
    destruct (cpu_once st) eqn:Hflag.
    + assert (Hst : cpu_built allCPUTypes st = st).
      { unfold cpu_built. rewrite <- Hcpu, <- Hflag. destruct st; reflexivity. }
      rewrite Hst. unfold gets, find_options, throw, ret. rewrite Hcpu.
      destruct (registry allCPUTypes !! str); reflexivity.
    + unfold bind at 1, cpu_init.
      rewrite cpu_loop_registry by exact allCPUTypes_named.
      unfold modify, gets, set_cpu_once, find_options, cpu_built, registry,
        throw, ret.
      cbn [cuda_map cpu_map cpu_once cuda_once]. rewrite Hcpu.
      destruct (registry_from ∅ allCPUTypes !! str); reflexivity.
Qed.

(** *** The statics stay consistent *)

Lemma consistent_initial : consistent allCPUTypes allCUDATypes initial.
Proof. split; reflexivity. Qed.

Lemma consistent_cuda_built (st : Statics) :
  consistent allCPUTypes allCUDATypes st ->
  consistent allCPUTypes allCUDATypes (cuda_built allCUDATypes st).
Proof. intros [Hcpu _]. split; [exact Hcpu | reflexivity]. Qed.

Lemma consistent_cpu_built (st : Statics) :
  consistent allCPUTypes allCUDATypes st ->
  consistent allCPUTypes allCUDATypes (cpu_built allCPUTypes st).
Proof. intros [_ Hcuda]. split; [reflexivity | exact Hcuda]. Qed.

Lemma consistent_call (cfg : DefaultTypeConfig DispatchKey) (str : string)
    (st : Statics) :
  consistent allCPUTypes allCUDATypes st ->
  consistent allCPUTypes allCUDATypes (snd (resolve cfg str st)).
Proof.
  intros Hst. destruct (String.eqb_spec str "torch.Tensor") as [->|Hne].
  - rewrite options_from_string_sentinel. exact Hst.
  - rewrite (options_from_string_lookup cfg str st Hst Hne).
    destruct (String.prefix cuda_prefix str); cbn [snd].
    + apply consistent_cuda_built, Hst.
    + apply consistent_cpu_built, Hst.
Qed.

(** Whatever calls came before, each registry is empty with its flag
    unset or fully built with its flag set. *)
Lemma reachable_consistent (st : Statics) :
  reachable_statics st -> consistent allCPUTypes allCUDATypes st.
Proof.
  induction 1 as [|cfg str st _ IH].
  - apply consistent_initial.
  - apply consistent_call, IH.
Qed.

(** A built registry is never touched again. *)
Lemma built_registry_stable (cfg : DefaultTypeConfig DispatchKey) (str : string)
    (st : Statics) :
  reachable_statics st ->
  (cpu_once st = true ->
     cpu_once (snd (resolve cfg str st)) = true
     /\ cpu_map (snd (resolve cfg str st)) = cpu_map st)
  /\ (cuda_once st = true ->
     cuda_once (snd (resolve cfg str st)) = true
     /\ cuda_map (snd (resolve cfg str st)) = cuda_map st).
Proof.
  intros Hre. pose proof (reachable_consistent st Hre) as Hst.
  destruct (String.eqb_spec str "torch.Tensor") as [->|Hne].
  - rewrite options_from_string_sentinel. cbn [snd]. tauto.
  - rewrite (options_from_string_lookup cfg str st Hst Hne).
    destruct Hst as [Hcpu Hcuda].
    destruct (String.prefix cuda_prefix str); cbn [snd]; split; intros Hflag;
      rewrite Hflag in *; cbn; auto.
Qed.

(** Resolving the name of an enumerated type gives the options of that
    type. *)
Lemma resolve_formatted_name (cfg : DefaultTypeConfig DispatchKey)
    (st : Statics) (t : DeprecatedTypeProperties) :
  reachable_statics st ->
  In t allCPUTypes \/ In t allCUDATypes ->
  exists name, type_to_string t = Ok name
    /\ fst (resolve cfg name st) = Ok (options t).
Proof.
  intros Hre Hin. pose proof (reachable_consistent st Hre) as Hst.
  destruct Hin as [Hin|Hin].
  - destruct (cpu_family_name t (allCPUTypes_family t Hin))
      as (name & Hname & Hsentinel & Hprefix).
    exists name. split; [exact Hname|].
    apply String.eqb_neq in Hsentinel.
    rewrite (options_from_string_lookup cfg name st Hst Hsentinel).
    rewrite <- has_cuda_prefix_prefix, Hprefix. cbn [fst].
    unfold find_options.
    rewrite (registry_lookup_type allCPUTypes t name Hin Hname). reflexivity.
  - destruct (cuda_family_name t (allCUDATypes_family t Hin))
      as (name & Hname & Hsentinel & Hprefix).
    exists name. split; [exact Hname|].
    apply String.eqb_neq in Hsentinel.
    rewrite (options_from_string_lookup cfg name st Hst Hsentinel).
    rewrite <- has_cuda_prefix_prefix, Hprefix. cbn [fst].
    unfold find_options.
    rewrite (registry_lookup_type allCUDATypes t name Hin Hname). reflexivity.
Qed.

(** C1: for every type that one of the two per-family enumerators
    lists, the formatter gives a name, and resolving that name returns
    the options of the type: options_from_string(type_to_string(t)) is
    t.options(), whatever calls were made before. *)
Theorem options_from_string_roundtrip (cfg : DefaultTypeConfig DispatchKey)
    (st : Statics) (t : DeprecatedTypeProperties) :
  reachable_statics st ->
  In t allCPUTypes \/ In t allCUDATypes ->
  exists name, type_to_string t = Ok name
    /\ fst (resolve cfg name st) = Ok (options t).
Proof. apply resolve_formatted_name. Qed.

(** C5, as the code has it: resolving "torch.Tensor" returns the options
    of the type that the default dispatch key, converted to a backend,
    and the default scalar type identify at the time of the call, and
    leaves the statics alone; this is also what resolving the formatted
    name of that default type returns whenever the default type is one
    that the per-family enumerators list. *)
Theorem options_from_string_default (cfg : DefaultTypeConfig DispatchKey)
    (st : Statics) :
  reachable_statics st ->
  resolve cfg "torch.Tensor" st = (Ok (options (default_type cfg)), st)
  /\ (In (default_type cfg) allCPUTypes \/ In (default_type cfg) allCUDATypes ->
      exists name, type_to_string (default_type cfg) = Ok name
        /\ fst (resolve cfg name st) = fst (resolve cfg "torch.Tensor" st)).
Proof.
  intros Hre. split; [reflexivity|]. intros Hin.
  destruct (resolve_formatted_name cfg st _ Hre Hin) as (name & Hname & Hres).
  exists name. split; [exact Hname|].
  rewrite Hres, options_from_string_sentinel. reflexivity.
Qed.

(** C6: for a string other than "torch.Tensor" the branch test of the
    resolver is the test for the literal prefix "torch.cuda."; with the
    prefix the string is looked up in the CUDA-family registry (built by
    this call if need be) and the CPU-family statics are left alone;
    without it, whatever its namespace, the string is looked up in the
    CPU-family registry and the CUDA-family statics are left alone, and
    a name unknown there fails with the invalid-type error. *)
Theorem options_from_string_family_selection
    (cfg : DefaultTypeConfig DispatchKey) (str : string) (st : Statics) :
  reachable_statics st ->
  str <> "torch.Tensor" ->
  has_cuda_prefix str = String.prefix "torch.cuda." str
  /\ (String.prefix "torch.cuda." str = true ->
      resolve cfg str st
      = (find_options (registry allCUDATypes) str, cuda_built allCUDATypes st))
  /\ (String.prefix "torch.cuda." str = false ->
      resolve cfg str st
      = (find_options (registry allCPUTypes) str, cpu_built allCPUTypes st)
      /\ (registry allCPUTypes !! str = None ->
          fst (resolve cfg str st)
          = Throw (ValueError ("invalid type: '" ++ c_str str ++ "'")))).
Proof.
  intros Hre Hne. pose proof (reachable_consistent st Hre) as Hst.
  pose proof (options_from_string_lookup cfg str st Hst Hne) as Hcall.
  change cuda_prefix with "torch.cuda." in Hcall.
  split; [apply has_cuda_prefix_prefix|].
  split; intros Hp; rewrite Hp in Hcall; [exact Hcall|].
  split; [exact Hcall|].
  intros Hnone. rewrite Hcall. cbn [fst]. unfold find_options.
  rewrite Hnone. reflexivity.
Qed.

(** C3, as the code has it: for a string that is not "torch.Tensor" and
    is not in the registry of the family selected for it, the resolver
    fails with the invalid-type error; for a string without NUL
    characters the message is "invalid type: '", the string, "'", and so
    contains the string verbatim.  The failing call leaves behind the
    statics with the selected registry built: nothing changes when that
    registry was built already, no entry present before is removed or
    changed, and the other family's flag and registry are left alone. *)
Theorem options_from_string_invalid_type
    (cfg : DefaultTypeConfig DispatchKey) (str : string) (st : Statics) :
  reachable_statics st ->
  str <> "torch.Tensor" ->
  selected_registry allCPUTypes allCUDATypes str !! str = None ->
  let st' := snd (resolve cfg str st) in
  (exists msg,
      fst (resolve cfg str st) = Throw (ValueError msg)
      /\ (nul_free str = true ->
          msg = "invalid type: '" ++ str ++ "'" /\ contains msg str))
  /\ st' = (if String.prefix cuda_prefix str
            then cuda_built allCUDATypes st else cpu_built allCPUTypes st)
  /\ (selected_once str st = true -> st' = st)
  /\ (forall k t, cpu_map st !! k = Some t -> cpu_map st' !! k = Some t)
  /\ (forall k t, cuda_map st !! k = Some t -> cuda_map st' !! k = Some t)
  /\ (if String.prefix cuda_prefix str
      then cpu_once st' = cpu_once st /\ cpu_map st' = cpu_map st
      else cuda_once st' = cuda_once st /\ cuda_map st' = cuda_map st).
Proof.
  intros Hre Hne Hnone st'. subst st'.
  pose proof (reachable_consistent st Hre) as Hst.
  rewrite (options_from_string_lookup cfg str st Hst Hne).
  unfold selected_registry, selected_once in *.
  destruct Hst as [Hcpu Hcuda].
  split.
  { exists (format "invalid type: '%s'" (c_str str)). split.
    - destruct (String.prefix cuda_prefix str); cbn [fst];
        unfold find_options; rewrite Hnone; reflexivity.
    - intros Hnul. rewrite (c_str_nul_free str Hnul).
      split; [reflexivity|]. exists "invalid type: '", "'". reflexivity. }
  split.
  { destruct (String.prefix cuda_prefix str); reflexivity. }
  split.
  { destruct (String.prefix cuda_prefix str); cbn [snd]; intros Hflag;
      [unfold cuda_built; rewrite <- Hflag | unfold cpu_built; rewrite <- Hflag].
    - rewrite Hflag in Hcuda. rewrite <- Hcuda. destruct st; reflexivity.
    - rewrite Hflag in Hcpu. rewrite <- Hcpu. destruct st; reflexivity. }
  destruct (String.prefix cuda_prefix str); cbn [snd cpu_built cuda_built
    cpu_map cuda_map cpu_once cuda_once]; repeat split; auto.
  - intros k t. rewrite Hcuda. destruct (cuda_once st); [auto|].
    rewrite lookup_empty. discriminate.
  - intros k t. rewrite Hcpu. destruct (cpu_once st); [auto|].
    rewrite lookup_empty. discriminate.
Qed.

End ResolverProperties.

(* ===================================================================== *)
(** ** The resolver on the framework's enumerators *)
(* ===================================================================== *)

Lemma framework_allCPUTypes_family (t : DeprecatedTypeProperties) :
  In t framework_allCPUTypes -> cpu_family (backend t) = true.
Proof.
  apply (proj1 (forallb_forall (fun t => cpu_family (backend t)) _)).
  vm_compute. reflexivity.
Qed.

Lemma framework_allCUDATypes_family (t : DeprecatedTypeProperties) :
  In t framework_allCUDATypes -> cuda_family (backend t) = true.
Proof.
  apply (proj1 (forallb_forall (fun t => cuda_family (backend t)) _)).
  vm_compute. reflexivity.
Qed.

(** Membership in one backend's block of an enumerator. *)
Lemma allTypesForBackends_In (backends : list Backend) (b : Backend)
    (s : ScalarType) :
  In b backends -> In (mkType b s) (allTypesForBackends backends).
Proof.
  intros Hb. unfold allTypesForBackends. apply in_flat_map.
  exists b. split; [exact Hb|].
  apply in_map. destruct s; vm_compute; tauto.
Qed.

Lemma options_from_string_roundtrip_witness :
  exists name,
    type_to_string (mkType SparseCPU Long) = Ok name
    /\ fst (example_resolver (mkDefault CPU Float) name
              (snd (example_resolver (mkDefault CPU Float) "torch.cuda.HalfTensor" initial)))
       = Ok (options (mkType SparseCPU Long)).
Proof.
  apply (options_from_string_roundtrip (fun key => key)
           framework_allCPUTypes framework_allCUDATypes
           framework_allCPUTypes_family framework_allCUDATypes_family).
  - apply reachable_call, reachable_initial.
  - left. apply allTypesForBackends_In. simpl. tauto.
Defined.

Lemma options_from_string_ignores_default_witness :
  "torch.FloatTensor" <> "torch.Tensor"
  /\ example_resolver (mkDefault CPU Float) "torch.FloatTensor" initial
     = example_resolver (mkDefault CUDA Double) "torch.FloatTensor" initial.
Proof.
  assert (H : "torch.FloatTensor" <> "torch.Tensor") by discriminate.
  split; [exact H|].
  apply (options_from_string_ignores_default (fun key => key)). exact H.
Defined.

Lemma options_from_string_default_witness :
  example_resolver (mkDefault CUDA Double) "torch.Tensor" initial
  = (Ok (options (mkType CUDA Double)), initial)
  /\ exists name,
       type_to_string (mkType CUDA Double) = Ok name
       /\ fst (example_resolver (mkDefault CUDA Double) name initial)
          = fst (example_resolver (mkDefault CUDA Double) "torch.Tensor" initial).
Proof.
  destruct (options_from_string_default (fun key => key)
              framework_allCPUTypes framework_allCUDATypes
              framework_allCPUTypes_family framework_allCUDATypes_family
              (mkDefault CUDA Double) initial
              (reachable_initial _ _ _)) as [Hsentinel Hname].
  split; [exact Hsentinel|].
  apply Hname. right. apply allTypesForBackends_In. simpl. tauto.
Defined.

(** With XPU as the default backend the sentinel resolves, to the options
    of (XPU, Float), while the formatted name of that default type,
    "torch.xpu.FloatTensor", is looked up in the CPU-family registry and
    is not found: the two calls differ. *)
Lemma sentinel_bypasses_registry :
  type_to_string (getDeprecatedTypeProperties XPU Float) = Ok "torch.xpu.FloatTensor"
  /\ fst (example_resolver (mkDefault XPU Float) "torch.Tensor" initial)
     = Ok (options (mkType XPU Float))
  /\ fst (example_resolver (mkDefault XPU Float) "torch.xpu.FloatTensor" initial)
     = Throw (ValueError "invalid type: 'torch.xpu.FloatTensor'")
  /\ fst (example_resolver (mkDefault XPU Float) "torch.xpu.FloatTensor" initial)
     <> fst (example_resolver (mkDefault XPU Float) "torch.Tensor" initial).
Proof.
  assert (H : fst (example_resolver (mkDefault XPU Float) "torch.xpu.FloatTensor" initial)
              = Throw (ValueError "invalid type: 'torch.xpu.FloatTensor'"))
    by (vm_compute; reflexivity).
  split; [reflexivity|]. split; [reflexivity|]. split; [exact H|].
  rewrite H. discriminate.
Qed.

Lemma options_from_string_family_selection_witness :
  "torch.wat.Tensor" <> "torch.Tensor"
  /\ has_cuda_prefix "torch.wat.Tensor" = false
  /\ fst (example_resolver (mkDefault CPU Float) "torch.wat.Tensor" initial)
     = Throw (ValueError "invalid type: 'torch.wat.Tensor'").
Proof.
  assert (H : "torch.wat.Tensor" <> "torch.Tensor") by discriminate.
  destruct (options_from_string_family_selection (fun key => key)
              framework_allCPUTypes framework_allCUDATypes
              framework_allCPUTypes_family framework_allCUDATypes_family
              (mkDefault CPU Float) "torch.wat.Tensor" initial
              (reachable_initial _ _ _) H) as (Htest & _ & Hcpu).
  split; [exact H|]. split; [reflexivity|].
  destruct (Hcpu eq_refl) as [_ Hunknown].
  apply Hunknown. vm_compute. reflexivity.
Defined.

Lemma options_from_string_invalid_type_witness :
  let st := snd (example_resolver (mkDefault CPU Float) "torch.FloatTensor" initial) in
  fst (example_resolver (mkDefault CPU Float) "torch.bogus.NotARealTensor" st)
  = Throw (ValueError "invalid type: 'torch.bogus.NotARealTensor'")
  /\ snd (example_resolver (mkDefault CPU Float) "torch.bogus.NotARealTensor" st) = st.
Proof.
  intros st.
  assert (Hne : "torch.bogus.NotARealTensor" <> "torch.Tensor") by discriminate.
  assert (Hre : reachable (fun key => key) framework_allCPUTypes
                  framework_allCUDATypes st)
    by apply reachable_call, reachable_initial.
  assert (Hnone : selected_registry framework_allCPUTypes framework_allCUDATypes
                    "torch.bogus.NotARealTensor" !! "torch.bogus.NotARealTensor" = None)
    by (vm_compute; reflexivity).
  destruct (options_from_string_invalid_type (fun key => key)
              framework_allCPUTypes framework_allCUDATypes
              framework_allCPUTypes_family framework_allCUDATypes_family
              (mkDefault CPU Float) "torch.bogus.NotARealTensor" st
              Hre Hne Hnone) as ((msg & Hthrow & Hmsg) & _ & Hsame & _).
  split.
  - destruct (Hmsg eq_refl) as [Heq _]. subst msg. exact Hthrow.
  - apply Hsame. vm_compute. reflexivity.
Defined.

(** Two failing calls that the stated claim does not cover.  The first
    call of a process, on an unknown name, builds the CPU-family registry
    before it fails: "torch.FloatTensor" is an entry afterwards and was
    not before.  A name with a NUL character inside is cut at the NUL in
    the message, which then does not contain the name. *)
Lemma failing_call_counterexample :
  ("torch.bogus.NotARealTensor" <> "torch.Tensor"
   /\ selected_registry framework_allCPUTypes framework_allCUDATypes
        "torch.bogus.NotARealTensor" !! "torch.bogus.NotARealTensor" = None
   /\ cpu_map initial !! "torch.FloatTensor" = None
   /\ cpu_map (snd (example_resolver (mkDefault CPU Float)
                      "torch.bogus.NotARealTensor" initial)) !! "torch.FloatTensor"
      = Some (mkType CPU Float)
   /\ ~ fails_leaving_registries
          (example_resolver (mkDefault CPU Float) "torch.bogus.NotARealTensor")
          "torch.bogus.NotARealTensor" initial)
  /\ (let str := "torch." ++ String NUL "Tensor" in
      let st := snd (example_resolver (mkDefault CPU Float) "torch.FloatTensor" initial) in
      str <> "torch.Tensor"
      /\ selected_registry framework_allCPUTypes framework_allCUDATypes str !! str = None
      /\ fst (example_resolver (mkDefault CPU Float) str st)
         = Throw (ValueError "invalid type: 'torch.'")
      /\ ~ fails_leaving_registries (example_resolver (mkDefault CPU Float) str) str st).
Proof.
  split.
  - assert (Hafter : cpu_map (snd (example_resolver (mkDefault CPU Float)
                        "torch.bogus.NotARealTensor" initial)) !! "torch.FloatTensor"
                     = Some (mkType CPU Float))
      by (vm_compute; reflexivity).
    split; [discriminate|].
    split; [vm_compute; reflexivity|].
    split; [reflexivity|].
    split; [exact Hafter|].
    intros (_ & Hcpu & _). rewrite Hcpu in Hafter. discriminate Hafter.
  - cbv zeta.
    assert (Hthrow : fst (example_resolver (mkDefault CPU Float)
                            ("torch." ++ String NUL "Tensor")
                            (snd (example_resolver (mkDefault CPU Float)
                                    "torch.FloatTensor" initial)))
                     = Throw (ValueError "invalid type: 'torch.'"))
      by (vm_compute; reflexivity).
    split; [discriminate|].
    split; [vm_compute; reflexivity|].
    split; [exact Hthrow|].
    intros ((msg & Hmsg & Hcontains) & _).
    rewrite Hthrow in Hmsg. injection Hmsg as <-.
    apply (contains_In _ _ NUL) in Hcontains.
    + vm_compute in Hcontains. intuition discriminate.
    + vm_compute. tauto.
Qed.

(* ===================================================================== *)
(** ** Further properties of the formatter *)
(* ===================================================================== *)

(** The shape of every name the formatter returns, by going through the
    backends that have a namespace and the scalar types. *)
Lemma type_to_string_shape (t : DeprecatedTypeProperties) (name : string) :
  type_to_string t = Ok name ->
  String.eqb name "torch.Tensor" = false
  /\ nul_free name = true
  /\ has_cuda_prefix name = cuda_family (backend t).
Proof.
  destruct t as [b s]. intros H.
  destruct b; try discriminate H;
    destruct s; vm_compute in H; injection H as <-; repeat split.
Qed.

Lemma options_to_string_as_type (o : TensorOptions) :
  options_to_string o
  = type_to_string (mkType (options_backend o)
                           (typeMetaToScalarType (options_dtype o))).
Proof. reflexivity. Qed.

(** X1: A name comes from one backend and one scalar type only: a type
    descriptor or an options bundle that is formatted to the name of [t]
    has the backend and the scalar type of [t]. *)
Theorem formatted_name_determines_type (o : TensorOptions)
    (t t' : DeprecatedTypeProperties) (name : string) :
  type_to_string t = Ok name ->
  (type_to_string t' = Ok name -> t' = t)
  /\ (options_to_string o = Ok name ->
      options_backend o = backend t
      /\ typeMetaToScalarType (options_dtype o) = scalarType t).
Proof.
  intros Ht. split.
  - intros Ht'. exact (type_to_string_inj t' t name Ht' Ht).
  - rewrite options_to_string_as_type. intros Ho.
    pose proof (type_to_string_inj _ t name Ho Ht) as Heq.
    rewrite <- Heq. split; reflexivity.
Qed.

Lemma formatted_name_determines_type_witness :
  type_to_string (mkType SparseCUDA Int) = Ok "torch.cuda.sparse.IntTensor"
  /\ (forall t', type_to_string t' = Ok "torch.cuda.sparse.IntTensor" ->
        t' = mkType SparseCUDA Int).
Proof.
  split; [reflexivity|]. intros t'.
  apply (formatted_name_determines_type
           (mkOptions CPU (scalarTypeToTypeMeta Float))
           (mkType SparseCUDA Int) t' "torch.cuda.sparse.IntTensor").
  reflexivity.
Defined.

(** X2: No formatted name is the sentinel "torch.Tensor", none has a NUL
    character (so the C string of a name is the name), and a name starts
    with "torch.cuda." exactly when its backend is CUDA or SparseCUDA. *)
Theorem formatted_name_shape (t : DeprecatedTypeProperties) (name : string) :
  type_to_string t = Ok name ->
  name <> "torch.Tensor"
  /\ c_str name = name
  /\ (String.prefix "torch.cuda." name = true <-> cuda_family (backend t) = true).
Proof.
  intros Ht.
  destruct (type_to_string_shape t name Ht) as (Hsentinel & Hnul & Hprefix).
  split; [apply String.eqb_neq; exact Hsentinel|].
  split; [apply c_str_nul_free; exact Hnul|].
  rewrite has_cuda_prefix_prefix in Hprefix.
  change cuda_prefix with "torch.cuda." in Hprefix.
  rewrite Hprefix. tauto.
Qed.

Lemma formatted_name_shape_witness :
  type_to_string (mkType QuantizedCPU QInt8) = Ok "torch.quantized.QInt8Tensor"
  /\ String.prefix "torch.cuda." "torch.quantized.QInt8Tensor" = false.
Proof.
  split; [reflexivity|].
  destruct (formatted_name_shape (mkType QuantizedCPU QInt8)
              "torch.quantized.QInt8Tensor" eq_refl) as (_ & _ & Hprefix).
  destruct (String.prefix "torch.cuda." "torch.quantized.QInt8Tensor");
    [|reflexivity].
  pose proof (proj1 Hprefix eq_refl) as H. discriminate H.
Defined.

(* ===================================================================== *)
(** ** Further properties of the enumerator *)
(* ===================================================================== *)

Lemma skipped_iff (b : Backend) (s : ScalarType) :
  skipped (b, s) = true <-> s = Bool /\ (b = SparseCUDA \/ b = SparseCPU).
Proof.
  split.
  - destruct b, s; simpl; intros H; try discriminate H; auto.
  - intros [-> [-> | ->]]; reflexivity.
Qed.

(** X3: The loops return a pair exactly when its backend is in the backend
    list, its scalar type is in the scalar-type list, and it is not Bool
    on SparseCUDA or SparseCPU; this for any two lists. *)
Theorem declared_types_loop_In (backends : list Backend)
    (scalar_types : list ScalarType) (b : Backend) (s : ScalarType) :
  In (b, s) (declared_types_loop backends scalar_types)
  <-> In b backends /\ In s scalar_types
      /\ ~ (s = Bool /\ (b = SparseCUDA \/ b = SparseCPU)).
Proof.
  rewrite declared_types_loop_spec. unfold declared_types_spec.
  rewrite List.filter_In, in_flat_map, <- skipped_iff, negb_true_iff.
  split.
  - intros [(b' & Hb & Hs) Hskip]. apply in_map_iff in Hs as (s' & [= <- <-] & Hs).
    rewrite Hskip. repeat split; auto; discriminate.
  - intros (Hb & Hs & Hskip). split.
    + exists b. split; [exact Hb|]. apply in_map_iff. eauto.
    + destruct (skipped (b, s)); [contradiction Hskip|]; reflexivity.
Qed.

Lemma product_NoDup (backends : list Backend) (scalar_types : list ScalarType) :
  List.NoDup backends -> List.NoDup scalar_types ->
  List.NoDup (flat_map (fun b => map (fun s => (b, s)) scalar_types) backends).
Proof.
  intros Hb Hs. induction Hb as [|b l Hnotin _ IH]; cbn [flat_map].
  - constructor.
  - apply List.NoDup_app.
    + apply List.NoDup_map_NoDup_ForallPairs; [|exact Hs].
      intros x y _ _ [= ->]. reflexivity.
    + exact IH.
    + intros [b' s'] Hin Hin'.
      apply in_map_iff in Hin as (s0 & [= <- <-] & _).
      apply in_flat_map in Hin' as (b0 & Hb0 & Hs0).
      apply in_map_iff in Hs0 as (s1 & [= <- <-] & _).
      contradiction.
Qed.

(** X4: Backend and scalar-type lists without repetitions give an
    enumeration without repetitions. *)
Theorem declared_types_loop_NoDup (backends : list Backend)
    (scalar_types : list ScalarType) :
  List.NoDup backends -> List.NoDup scalar_types ->
  List.NoDup (declared_types_loop backends scalar_types).
Proof.
  intros Hb Hs. rewrite declared_types_loop_spec.
  apply List.NoDup_filter, product_NoDup; assumption.
Qed.

Lemma declared_types_loop_NoDup_witness : List.NoDup all_declared_types.
Proof.
  apply (declared_types_loop_NoDup [CPU; CUDA; SparseCPU; SparseCUDA]
           AT_FORALL_SCALAR_TYPES_WITH_COMPLEX_EXCEPT_COMPLEX_HALF).
  - apply NoDup_ListNoDup, (bool_decide_unpack _). vm_compute. exact I.
  - apply NoDup_ListNoDup, (bool_decide_unpack _). vm_compute. exact I.
Defined.

(** X5: Every pair of [all_declared_types] is on a backend of the CPU or of
    the CUDA family and has a name, and two pairs with the same name are
    the same pair. *)
Theorem all_declared_types_named (p q : Backend * ScalarType) :
  In p all_declared_types -> In q all_declared_types ->
  (cpu_family (fst p) = true \/ cuda_family (fst p) = true)
  /\ (exists name, type_to_string (declared_type p) = Ok name)
  /\ (type_to_string (declared_type p) = type_to_string (declared_type q) ->
      p = q).
Proof.
  intros Hp Hq.
  assert (Hfamily : cpu_family (fst p) = true \/ cuda_family (fst p) = true).
  { destruct p as [b s]. apply declared_types_loop_In in Hp as (Hb & _).
    cbn [fst]. simpl in Hb. intuition (subst; auto). }
  assert (Hname : exists name, type_to_string (declared_type p) = Ok name).
  { destruct p as [b s]. cbn [fst] in Hfamily.
    destruct Hfamily as [Hf|Hf].
    - destruct (cpu_family_name (mkType b s) Hf) as (n & Hn & _). eauto.
    - destruct (cuda_family_name (mkType b s) Hf) as (n & Hn & _). eauto. }
  split; [exact Hfamily|]. split; [exact Hname|].
  destruct Hname as [name Hname]. intros Heq.
  rewrite Hname in Heq. symmetry in Heq.
  pose proof (type_to_string_inj _ _ name Hname Heq) as Ht.
  destruct p, q. injection Ht as -> ->. reflexivity.
Qed.

Lemma all_declared_types_named_witness :
  type_to_string (declared_type (SparseCUDA, BFloat16))
  = Ok "torch.cuda.sparse.BFloat16Tensor"
  /\ cuda_family SparseCUDA = true.
Proof.
  split; [reflexivity|].
  assert (Hin : In (SparseCUDA, BFloat16) all_declared_types)
    by (vm_compute; tauto).
  destruct (all_declared_types_named (SparseCUDA, BFloat16) (SparseCUDA, BFloat16)
              Hin Hin) as ([Hf|Hf] & _); [discriminate Hf | exact Hf].
Defined.

(* ===================================================================== *)
(** ** Further properties of the registry *)
(* ===================================================================== *)

Lemma type_to_string_supported (t : DeprecatedTypeProperties) :
  supported (backend t) = true -> exists name, type_to_string t = Ok name.
Proof.
  destruct t as [b s]. cbn [backend]. intros Hb.
  destruct b; try discriminate Hb; eexists; reflexivity.
Qed.

Lemma type_to_string_unsupported (t : DeprecatedTypeProperties) :
  supported (backend t) = false ->
  type_to_string t
  = Throw (c10_Error ("Unimplemented backend " ++ backend_name (backend t))).
Proof.
  intros Hb. unfold type_to_string.
  rewrite (backend_to_string_unsupported _ Hb). reflexivity.
Qed.

(** The registry holds a type under a name exactly when the type is
    listed and the name is its formatted name. *)
Lemma registry_lookup_iff (types : list DeprecatedTypeProperties) (k : string)
    (t : DeprecatedTypeProperties) :
  registry types !! k = Some t <-> In t types /\ type_to_string t = Ok k.
Proof.
  split.
  - intros Hk. apply registry_from_lookup_Some in Hk as [Hk|Hk]; [|exact Hk].
    rewrite lookup_empty in Hk. discriminate.
  - intros [Hin Hn]. apply registry_lookup_type; assumption.
Qed.

Lemma registry_lookup_None (types : list DeprecatedTypeProperties) (k : string) :
  registry types !! k = None <->
  (forall t, In t types -> type_to_string t <> Ok k).
Proof.
  split.
  - intros Hk t Hin Hn.
    rewrite (registry_lookup_type types t k Hin Hn) in Hk. discriminate.
  - intros Hnone. destruct (registry types !! k) as [t|] eqn:Hk; [|reflexivity].
    apply registry_lookup_iff in Hk as [Hin Hn]. destruct (Hnone t Hin Hn).
Qed.

(** Lists with the same members give the same registry, whatever the
    order and the repetitions. *)
Lemma registry_same_members (types types' : list DeprecatedTypeProperties) :
  (forall t, In t types <-> In t types') -> registry types = registry types'.
Proof.
  intros Hsame. apply map_eq. intros k.
  destruct (registry types !! k) as [t|] eqn:Hk; symmetry.
  - apply registry_lookup_iff. apply registry_lookup_iff in Hk as [Hin Hn].
    split; [apply Hsame; exact Hin | exact Hn].
  - apply registry_lookup_None. intros t Hin.
    apply (proj1 (registry_lookup_None types k) Hk). apply Hsame. exact Hin.
Qed.

(** Building over names that are all present changes nothing. *)
Lemma registry_from_absorbed (types : list DeprecatedTypeProperties) (m : type_map) :
  (forall t name, In t types -> type_to_string t = Ok name -> is_Some (m !! name)) ->
  registry_from m types = m.
Proof.
  induction types as [|x l IH]; intros Hpresent; [reflexivity|].
  cbn [registry_from fold_left].
  destruct (type_to_string x) as [name|e] eqn:Hx.
  - destruct (Hpresent x name (or_introl eq_refl) Hx) as [v Hv].
    unfold emplace. rewrite Hv.
    apply IH. intros t n Ht. apply Hpresent. right. exact Ht.
  - apply IH. intros t n Ht. apply Hpresent. right. exact Ht.
Qed.

Lemma registry_from_twice (types : list DeprecatedTypeProperties) (m : type_map) :
  registry_from (registry_from m types) types = registry_from m types.
Proof.
  apply registry_from_absorbed. intros t name Hin Hn.
  apply (registry_from_lookup_In types m name t Hin Hn).
Qed.

(* ===================================================================== *)
(** ** Further properties of the resolver *)
(* ===================================================================== *)

Section ResolverBuildFailure.

(** No assumption on the enumerators here: a listed type may be on a
    backend the formatter has no namespace for. *)
Context {DispatchKey : Type}.
Variable dispatchKeyToBackend : DispatchKey -> Backend.
Variable allCPUTypes : list DeprecatedTypeProperties.
Variable allCUDATypes : list DeprecatedTypeProperties.

Local Abbreviation resolve :=
  (options_from_string dispatchKeyToBackend allCPUTypes allCUDATypes).

Lemma cpu_loop_throws (named : list DeprecatedTypeProperties)
    (t0 : DeprecatedTypeProperties) (rest : list DeprecatedTypeProperties)
    (e : exn) (st : Statics) :
  (forall t, In t named -> exists name, type_to_string t = Ok name) ->
  type_to_string t0 = Throw e ->
  for_each (named ++ t0 :: rest) (fun type =>
      name <- lift (type_to_string type) ;;
      modify (cpu_map_emplace name type)) st
  = (Throw e, {| cpu_once := cpu_once st; cuda_once := cuda_once st;
                 cpu_map := registry_from (cpu_map st) named;
                 cuda_map := cuda_map st |}).
Proof.
  intros Hnamed Ht0. revert st Hnamed.
  induction named as [|x l IH]; intros st Hnamed.
  - cbn [app for_each registry_from fold_left]. unfold bind at 1 2, lift.
    rewrite Ht0. destruct st; reflexivity.
  - destruct (Hnamed x (or_introl eq_refl)) as [name Hname].
    cbn [app for_each registry_from fold_left]. unfold bind at 1 2, lift, modify.
    rewrite Hname, IH by (intros t Ht; apply Hnamed; right; exact Ht).
    reflexivity.
Qed.

Lemma cuda_loop_throws (named : list DeprecatedTypeProperties)
    (t0 : DeprecatedTypeProperties) (rest : list DeprecatedTypeProperties)
    (e : exn) (st : Statics) :
  (forall t, In t named -> exists name, type_to_string t = Ok name) ->
  type_to_string t0 = Throw e ->
  for_each (named ++ t0 :: rest) (fun type =>
      name <- lift (type_to_string type) ;;
      modify (cuda_map_emplace name type)) st
  = (Throw e, {| cpu_once := cpu_once st; cuda_once := cuda_once st;
                 cpu_map := cpu_map st;
                 cuda_map := registry_from (cuda_map st) named |}).
Proof.
  intros Hnamed Ht0. revert st Hnamed.
  induction named as [|x l IH]; intros st Hnamed.
  - cbn [app for_each registry_from fold_left]. unfold bind at 1 2, lift.
    rewrite Ht0. destruct st; reflexivity.
  - destruct (Hnamed x (or_introl eq_refl)) as [name Hname].
    cbn [app for_each registry_from fold_left]. unfold bind at 1 2, lift, modify.
    rewrite Hname, IH by (intros t Ht; apply Hnamed; right; exact Ht).
    reflexivity.
Qed.

(** X6: When [allCPUTypes] lists a type on a backend without a namespace,
    a call on a string other than the sentinel and without the CUDA
    prefix, made while [cpu_once] is unset, throws the formatter's
    "Unimplemented backend" error for the first such type instead of
    looking the string up.  The flag stays unset, the types listed before
    the offending one stay registered, the CUDA statics are left alone,
    and the next such call runs the build again and ends the same way. *)
Theorem options_from_string_cpu_build_throws
    (cfg : DefaultTypeConfig DispatchKey) (str : string) (st : Statics)
    (named : list DeprecatedTypeProperties) (t0 : DeprecatedTypeProperties)
    (rest : list DeprecatedTypeProperties) :
  allCPUTypes = (named ++ t0 :: rest)%list ->
  (forall t, In t named -> supported (backend t) = true) ->
  supported (backend t0) = false ->
  str <> "torch.Tensor" ->
  String.prefix "torch.cuda." str = false ->
  cpu_once st = false ->
  let e := c10_Error ("Unimplemented backend " ++ backend_name (backend t0)) in
  let st' := {| cpu_once := false; cuda_once := cuda_once st;
                cpu_map := registry_from (cpu_map st) named;
                cuda_map := cuda_map st |} in
  resolve cfg str st = (Throw e, st')
  /\ resolve cfg str st' = (Throw e, st').
Proof.
  intros Hlist Hnamed Ht0 Hne Hprefix Hflag e st'.
  assert (Hnames : forall t, In t named -> exists name, type_to_string t = Ok name)
    by (intros t Ht; apply type_to_string_supported, Hnamed, Ht).
  assert (Hcall : forall s, cpu_once s = false ->
            resolve cfg str s
            = (Throw e, {| cpu_once := cpu_once s; cuda_once := cuda_once s;
                           cpu_map := registry_from (cpu_map s) named;
                           cuda_map := cuda_map s |})).
  { intros s Hs. unfold options_from_string.
    apply String.eqb_neq in Hne. rewrite Hne, has_cuda_prefix_prefix.
    change cuda_prefix with "torch.cuda.". rewrite Hprefix.
    unfold bind at 1 2, call_once. rewrite Hs.
    unfold bind at 1, cpu_init. rewrite Hlist.
    rewrite (cpu_loop_throws named t0 rest e s Hnames
               (type_to_string_unsupported t0 Ht0)).
    rewrite ?Hs. reflexivity. }
  split.
  - rewrite (Hcall st Hflag), Hflag. reflexivity.
  - rewrite (Hcall st' eq_refl). subst st'.
    cbn [cpu_once cuda_once cpu_map cuda_map].
    rewrite registry_from_twice. reflexivity.
Qed.

(** X7: When [allCUDATypes] lists a type on a backend without a
    namespace, a call on a string with the CUDA prefix, made while
    [cuda_once] is unset, throws the formatter's "Unimplemented backend"
    error for the first such type.  The flag stays unset, the types
    listed before the offending one stay registered, the CPU statics are
    left alone, and the next such call ends the same way. *)
Theorem options_from_string_cuda_build_throws
    (cfg : DefaultTypeConfig DispatchKey) (str : string) (st : Statics)
    (named : list DeprecatedTypeProperties) (t0 : DeprecatedTypeProperties)
    (rest : list DeprecatedTypeProperties) :
  allCUDATypes = (named ++ t0 :: rest)%list ->
  (forall t, In t named -> supported (backend t) = true) ->
  supported (backend t0) = false ->
  String.prefix "torch.cuda." str = true ->
  cuda_once st = false ->
  let e := c10_Error ("Unimplemented backend " ++ backend_name (backend t0)) in
  let st' := {| cpu_once := cpu_once st; cuda_once := false;
                cpu_map := cpu_map st;
                cuda_map := registry_from (cuda_map st) named |} in
  resolve cfg str st = (Throw e, st')
  /\ resolve cfg str st' = (Throw e, st').
Proof.
  intros Hlist Hnamed Ht0 Hprefix Hflag e st'.
  assert (Hne : String.eqb str "torch.Tensor" = false).
  { apply String.eqb_neq. intros ->. discriminate Hprefix. }
  assert (Hnames : forall t, In t named -> exists name, type_to_string t = Ok name)
    by (intros t Ht; apply type_to_string_supported, Hnamed, Ht).
  assert (Hcall : forall s, cuda_once s = false ->
            resolve cfg str s
            = (Throw e, {| cpu_once := cpu_once s; cuda_once := cuda_once s;
                           cpu_map := cpu_map s;
                           cuda_map := registry_from (cuda_map s) named |})).
  { intros s Hs. unfold options_from_string.
    rewrite Hne, has_cuda_prefix_prefix.
    change cuda_prefix with "torch.cuda.". rewrite Hprefix.
    unfold bind at 1 2, call_once. rewrite Hs.
    unfold bind at 1, cuda_init. rewrite Hlist.
    rewrite (cuda_loop_throws named t0 rest e s Hnames
               (type_to_string_unsupported t0 Ht0)).
    rewrite ?Hs. reflexivity. }
  split.
  - rewrite (Hcall st Hflag), Hflag. reflexivity.
  - rewrite (Hcall st' eq_refl). subst st'.
    cbn [cpu_once cuda_once cpu_map cuda_map].
    rewrite registry_from_twice. reflexivity.
Qed.

End ResolverBuildFailure.

Section ResolverCalls.

Context {DispatchKey : Type}.
Variable dispatchKeyToBackend : DispatchKey -> Backend.
Variable allCPUTypes : list DeprecatedTypeProperties.
Variable allCUDATypes : list DeprecatedTypeProperties.

Hypothesis allCPUTypes_family :
  forall t, In t allCPUTypes -> cpu_family (backend t) = true.
Hypothesis allCUDATypes_family :
  forall t, In t allCUDATypes -> cuda_family (backend t) = true.

Local Abbreviation resolve :=
  (options_from_string dispatchKeyToBackend allCPUTypes allCUDATypes).
Local Abbreviation reachable_statics :=
  (reachable dispatchKeyToBackend allCPUTypes allCUDATypes).

(** A call on a string other than the sentinel, in reachable statics. *)
Lemma reachable_call_lookup (cfg : DefaultTypeConfig DispatchKey) (str : string)
    (st : Statics) :
  reachable_statics st ->
  str <> "torch.Tensor" ->
  resolve cfg str st
  = if String.prefix cuda_prefix str
    then (find_options (registry allCUDATypes) str, cuda_built allCUDATypes st)
    else (find_options (registry allCPUTypes) str, cpu_built allCPUTypes st).
Proof.
  intros Hre Hne.
  apply (options_from_string_lookup dispatchKeyToBackend allCPUTypes allCUDATypes
           allCPUTypes_family allCUDATypes_family cfg str st); [|exact Hne].
  apply (reachable_consistent dispatchKeyToBackend allCPUTypes allCUDATypes
           allCPUTypes_family allCUDATypes_family st Hre).
Qed.

Lemma reachable_call_outcome (cfg : DefaultTypeConfig DispatchKey) (str : string)
    (st : Statics) :
  reachable_statics st ->
  str <> "torch.Tensor" ->
  fst (resolve cfg str st)
  = find_options (selected_registry allCPUTypes allCUDATypes str) str.
Proof.
  intros Hre Hne. rewrite (reachable_call_lookup cfg str st Hre Hne).
  unfold selected_registry.
  destruct (String.prefix cuda_prefix str); reflexivity.
Qed.

Lemma selected_registry_lookup_iff (str k : string) (t : DeprecatedTypeProperties) :
  selected_registry allCPUTypes allCUDATypes str !! k = Some t
  <-> In t (selected_types allCPUTypes allCUDATypes str)
      /\ type_to_string t = Ok k.
Proof.
  unfold selected_registry, selected_types.
  destruct (String.prefix cuda_prefix str); apply registry_lookup_iff.
Qed.

(** X8: The resolver accepts exactly the names of the types that the
    enumerator of the selected family lists: on a string other than the
    sentinel it returns the options of a listed type whose formatted name
    is the string, and when no listed type has that name it throws the
    invalid-type error; it throws nothing else. *)
Theorem options_from_string_accepts_listed_names
    (cfg : DefaultTypeConfig DispatchKey) (str : string) (st : Statics) :
  reachable_statics st ->
  str <> "torch.Tensor" ->
  (exists t, In t (selected_types allCPUTypes allCUDATypes str)
     /\ type_to_string t = Ok str
     /\ fst (resolve cfg str st) = Ok (options t))
  \/ ((forall t, In t (selected_types allCPUTypes allCUDATypes str) ->
         type_to_string t <> Ok str)
      /\ fst (resolve cfg str st)
         = Throw (ValueError (format "invalid type: '%s'" (c_str str)))).
Proof.
  intros Hre Hne. rewrite (reachable_call_outcome cfg str st Hre Hne).
  unfold find_options.
  destruct (selected_registry allCPUTypes allCUDATypes str !! str) as [t|] eqn:Hk.
  - left. exists t. apply selected_registry_lookup_iff in Hk as [Hin Hn]. auto.
  - right. split; [|reflexivity]. intros t Hin Hn.
    assert (Hsome : selected_registry allCPUTypes allCUDATypes str !! str = Some t)
      by (apply selected_registry_lookup_iff; auto).
    congruence.
Qed.


(** X10: The name of a type that neither enumerator lists does not resolve:
    the call throws the invalid-type error with that name.  So the names
    the formatter gives to XPU, SparseXPU, QuantizedCPU and HPU types are
    all rejected. *)
Theorem options_from_string_rejects_unlisted
    (cfg : DefaultTypeConfig DispatchKey) (st : Statics)
    (t : DeprecatedTypeProperties) (name : string) :
  reachable_statics st ->
  type_to_string t = Ok name ->
  ~ In t allCPUTypes -> ~ In t allCUDATypes ->
  fst (resolve cfg name st)
  = Throw (ValueError ("invalid type: '" ++ name ++ "'")).
Proof.
  intros Hre Hn Hcpu Hcuda.
  destruct (type_to_string_shape t name Hn) as (Hsentinel & Hnul & _).
  apply String.eqb_neq in Hsentinel.
  rewrite (reachable_call_outcome cfg name st Hre Hsentinel).
  unfold find_options.
  destruct (selected_registry allCPUTypes allCUDATypes name !! name) as [t'|] eqn:Hk.
  - apply selected_registry_lookup_iff in Hk as [Hin Hn'].
    rewrite (type_to_string_inj t' t name Hn' Hn) in Hin.
    unfold selected_types in Hin.
    destruct (String.prefix cuda_prefix name); contradiction.
  - rewrite (c_str_nul_free name Hnul). reflexivity.
Qed.

(** X11: The outcome of a call does not depend on the calls made before it:
    in any two reachable statics the resolver returns the same options
    or throws the same error. *)
Theorem options_from_string_history_independent
    (cfg : DefaultTypeConfig DispatchKey) (str : string) (st1 st2 : Statics) :
  reachable_statics st1 -> reachable_statics st2 ->
  fst (resolve cfg str st1) = fst (resolve cfg str st2).
Proof.
  intros H1 H2. destruct (String.eqb_spec str "torch.Tensor") as [->|Hne].
  - reflexivity.
  - rewrite (reachable_call_outcome cfg str st1 H1 Hne),
      (reachable_call_outcome cfg str st2 H2 Hne). reflexivity.
Qed.

(** X12: Repeating a call gives the same outcome and changes the statics no
    further. *)
Theorem options_from_string_repeated
    (cfg : DefaultTypeConfig DispatchKey) (str : string) (st : Statics) :
  reachable_statics st ->
  resolve cfg str (snd (resolve cfg str st)) = resolve cfg str st.
Proof.
  intros Hre.
  pose proof (reachable_call _ _ _ cfg str st Hre) as Hre'.
  destruct (String.eqb_spec str "torch.Tensor") as [->|Hne].
  - reflexivity.
  - rewrite (reachable_call_lookup cfg str _ Hre' Hne).
    rewrite (reachable_call_lookup cfg str st Hre Hne).
    destruct (String.prefix cuda_prefix str); reflexivity.
Qed.

(** X13: Two calls leave the same statics behind in either order. *)
Theorem options_from_string_calls_commute
    (cfg1 cfg2 : DefaultTypeConfig DispatchKey) (str1 str2 : string)
    (st : Statics) :
  reachable_statics st ->
  snd (resolve cfg2 str2 (snd (resolve cfg1 str1 st)))
  = snd (resolve cfg1 str1 (snd (resolve cfg2 str2 st))).
Proof.
  intros Hre.
  pose proof (reachable_call _ _ _ cfg1 str1 st Hre) as Hre1.
  pose proof (reachable_call _ _ _ cfg2 str2 st Hre) as Hre2.
  destruct (String.eqb_spec str1 "torch.Tensor") as [->|Hne1];
    destruct (String.eqb_spec str2 "torch.Tensor") as [->|Hne2].
  - reflexivity.
  - rewrite !options_from_string_sentinel. reflexivity.
  - rewrite !options_from_string_sentinel. reflexivity.
  - rewrite (reachable_call_lookup cfg2 str2 _ Hre1 Hne2).
    rewrite (reachable_call_lookup cfg1 str1 _ Hre2 Hne1).
    rewrite (reachable_call_lookup cfg1 str1 st Hre Hne1).
    rewrite (reachable_call_lookup cfg2 str2 st Hre Hne2).
    destruct (String.prefix cuda_prefix str1), (String.prefix cuda_prefix str2);
      cbn [snd]; reflexivity.
Qed.

(** X14: The statics a process can be in are four: those of its start,
    those with the CPU registry built, those with the CUDA registry
    built and those with both built; each of the four is reached. *)
Theorem reachable_statics_four (cfg : DefaultTypeConfig DispatchKey)
    (st : Statics) :
  reachable_statics st
  <-> st = initial
      \/ st = cpu_built allCPUTypes initial
      \/ st = cuda_built allCUDATypes initial
      \/ st = cpu_built allCPUTypes (cuda_built allCUDATypes initial).
Proof.
  assert (Hempty : "" <> "torch.Tensor") by discriminate.
  assert (Hcuda : "torch.cuda." <> "torch.Tensor") by discriminate.
  assert (Hcpu_call : forall s, reachable_statics s ->
            reachable_statics (cpu_built allCPUTypes s)).
  { intros s Hs. pose proof (reachable_call _ _ _ cfg "" s Hs) as H.
    rewrite (reachable_call_lookup cfg "" s Hs Hempty) in H. exact H. }
  assert (Hcuda_call : forall s, reachable_statics s ->
            reachable_statics (cuda_built allCUDATypes s)).
  { intros s Hs. pose proof (reachable_call _ _ _ cfg "torch.cuda." s Hs) as H.
    rewrite (reachable_call_lookup cfg "torch.cuda." s Hs Hcuda) in H. exact H. }
  split.
  - intros Hre.
    destruct (reachable_consistent dispatchKeyToBackend allCPUTypes allCUDATypes
                allCPUTypes_family allCUDATypes_family st Hre) as [Hc Hg].
    destruct st as [c g mc mg]. cbn [cpu_map cuda_map cpu_once cuda_once] in *.
    subst mc mg. destruct c, g; auto.
  - pose proof (reachable_initial dispatchKeyToBackend allCPUTypes allCUDATypes)
      as Hinit.
    intros [-> | [-> | [-> | ->]]]; auto.
Qed.

End ResolverCalls.

(** X15: Two pairs of enumerators that list the same types, in whatever order
    and with whatever repetitions, make the resolver return the same
    options or throw the same error on every string. *)
Theorem options_from_string_enumeration_order {DispatchKey : Type}
    (dispatchKeyToBackend : DispatchKey -> Backend)
    (allCPUTypes allCUDATypes allCPUTypes' allCUDATypes' : list DeprecatedTypeProperties)
    (cfg : DefaultTypeConfig DispatchKey) (str : string) (st st' : Statics) :
  (forall t, In t allCPUTypes -> cpu_family (backend t) = true) ->
  (forall t, In t allCUDATypes -> cuda_family (backend t) = true) ->
  (forall t, In t allCPUTypes <-> In t allCPUTypes') ->
  (forall t, In t allCUDATypes <-> In t allCUDATypes') ->
  reachable dispatchKeyToBackend allCPUTypes allCUDATypes st ->
  reachable dispatchKeyToBackend allCPUTypes' allCUDATypes' st' ->
  fst (options_from_string dispatchKeyToBackend allCPUTypes allCUDATypes cfg str st)
  = fst (options_from_string dispatchKeyToBackend allCPUTypes' allCUDATypes' cfg str st').
Proof.
  intros Hcpu Hcuda Hsame_cpu Hsame_cuda Hre Hre'.
  destruct (String.eqb_spec str "torch.Tensor") as [->|Hne]; [reflexivity|].
  assert (Hcpu' : forall t, In t allCPUTypes' -> cpu_family (backend t) = true)
    by (intros t Ht; apply Hcpu, Hsame_cpu, Ht).
  assert (Hcuda' : forall t, In t allCUDATypes' -> cuda_family (backend t) = true)
    by (intros t Ht; apply Hcuda, Hsame_cuda, Ht).
  rewrite (reachable_call_outcome dispatchKeyToBackend allCPUTypes allCUDATypes
             Hcpu Hcuda cfg str st Hre Hne).
  rewrite (reachable_call_outcome dispatchKeyToBackend allCPUTypes' allCUDATypes'
             Hcpu' Hcuda' cfg str st' Hre' Hne).
  unfold selected_registry.
  rewrite (registry_same_members allCPUTypes allCPUTypes' Hsame_cpu).
  rewrite (registry_same_members allCUDATypes allCUDATypes' Hsame_cuda).
  reflexivity.
Qed.

(* ===================================================================== *)
(** ** The further properties on examples *)
(* ===================================================================== *)

(** The resolver on the framework's enumerators, with the backends
    themselves as dispatch keys. *)
Local Abbreviation framework_resolver :=
  (options_from_string (fun key : Backend => key)
     framework_allCPUTypes framework_allCUDATypes).

Lemma options_from_string_cpu_build_throws_witness :
  options_from_string (fun key => key)
    [mkType CPU Float; mkType HIP Float; mkType CPU Double]
    framework_allCUDATypes (mkDefault CPU Float) "torch.FloatTensor" initial
  = (Throw (c10_Error "Unimplemented backend HIP"),
     {| cpu_once := false; cuda_once := false;
        cpu_map := registry_from ∅ [mkType CPU Float]; cuda_map := ∅ |}).
Proof.
  apply (options_from_string_cpu_build_throws (fun key => key)
           [mkType CPU Float; mkType HIP Float; mkType CPU Double]
           framework_allCUDATypes (mkDefault CPU Float) "torch.FloatTensor" initial
           [mkType CPU Float] (mkType HIP Float) [mkType CPU Double]).
  - reflexivity.
  - intros t [<-|[]]. reflexivity.
  - reflexivity.
  - discriminate.
  - reflexivity.
  - reflexivity.
Defined.

Lemma options_from_string_cuda_build_throws_witness :
  options_from_string (fun key => key) framework_allCPUTypes
    [mkType CUDA Float; mkType Vulkan Float]
    (mkDefault CPU Float) "torch.cuda.FloatTensor" initial
  = (Throw (c10_Error "Unimplemented backend Vulkan"),
     {| cpu_once := false; cuda_once := false;
        cpu_map := ∅; cuda_map := registry_from ∅ [mkType CUDA Float] |}).
Proof.
  apply (options_from_string_cuda_build_throws (fun key => key)
           framework_allCPUTypes [mkType CUDA Float; mkType Vulkan Float]
           (mkDefault CPU Float) "torch.cuda.FloatTensor" initial
           [mkType CUDA Float] (mkType Vulkan Float) []).
  - reflexivity.
  - intros t [<-|[]]. reflexivity.
  - reflexivity.
  - reflexivity.
  - reflexivity.
Defined.

Lemma options_from_string_accepts_listed_names_witness :
  (exists t, In t (selected_types framework_allCPUTypes framework_allCUDATypes
                     "torch.cuda.sparse.HalfTensor")
     /\ type_to_string t = Ok "torch.cuda.sparse.HalfTensor"
     /\ fst (framework_resolver (mkDefault CPU Float)
               "torch.cuda.sparse.HalfTensor" initial) = Ok (options t))
  \/ ((forall t, In t (selected_types framework_allCPUTypes framework_allCUDATypes
                         "torch.cuda.sparse.HalfTensor") ->
         type_to_string t <> Ok "torch.cuda.sparse.HalfTensor")
      /\ fst (framework_resolver (mkDefault CPU Float)
                "torch.cuda.sparse.HalfTensor" initial)
         = Throw (ValueError (format "invalid type: '%s'"
                                (c_str "torch.cuda.sparse.HalfTensor")))).
Proof.
 
  apply (options_from_string_accepts_listed_names (fun key => key)
           framework_allCPUTypes framework_allCUDATypes
           framework_allCPUTypes_family framework_allCUDATypes_family).
  - apply reachable_initial.
  - discriminate.
Defined.


Lemma options_from_string_rejects_unlisted_witness :
  type_to_string (mkType HPU Float) = Ok "torch.hpu.FloatTensor"
  /\ fst (framework_resolver (mkDefault CPU Float) "torch.hpu.FloatTensor" initial)
     = Throw (ValueError "invalid type: 'torch.hpu.FloatTensor'").
Proof.
  split; [reflexivity|].
  apply (options_from_string_rejects_unlisted (fun key => key)
           framework_allCPUTypes framework_allCUDATypes
           framework_allCPUTypes_family framework_allCUDATypes_family
           (mkDefault CPU Float) initial (mkType HPU Float)).
  - apply reachable_initial.
  - reflexivity.
  - intros Hin. apply framework_allCPUTypes_family in Hin. discriminate Hin.
  - intros Hin. apply framework_allCUDATypes_family in Hin. discriminate Hin.
Defined.

Lemma options_from_string_history_independent_witness :
  fst (framework_resolver (mkDefault CPU Float) "torch.cuda.IntTensor" initial)
  = fst (framework_resolver (mkDefault CPU Float) "torch.cuda.IntTensor"
           (snd (framework_resolver (mkDefault CPU Float) "torch.nope" initial))).
Proof.
 
  apply (options_from_string_history_independent (fun key => key)
           framework_allCPUTypes framework_allCUDATypes
           framework_allCPUTypes_family framework_allCUDATypes_family).
  - apply reachable_initial.
  - apply reachable_call, reachable_initial.
Defined.

Lemma options_from_string_repeated_witness :
  framework_resolver (mkDefault CPU Float) "torch.cuda.IntTensor"
    (snd (framework_resolver (mkDefault CPU Float) "torch.cuda.IntTensor" initial))
  = framework_resolver (mkDefault CPU Float) "torch.cuda.IntTensor" initial.
Proof.
 
  apply (options_from_string_repeated (fun key => key)
           framework_allCPUTypes framework_allCUDATypes
           framework_allCPUTypes_family framework_allCUDATypes_family).
  apply reachable_initial.
Defined.

Lemma options_from_string_calls_commute_witness :
  snd (framework_resolver (mkDefault CPU Float) "torch.cuda.IntTensor"
         (snd (framework_resolver (mkDefault CUDA Half) "torch.nope" initial)))
  = snd (framework_resolver (mkDefault CUDA Half) "torch.nope"
           (snd (framework_resolver (mkDefault CPU Float) "torch.cuda.IntTensor" initial))).
Proof.
 
  apply (options_from_string_calls_commute (fun key => key)
           framework_allCPUTypes framework_allCUDATypes
           framework_allCPUTypes_family framework_allCUDATypes_family).
  apply reachable_initial.
Defined.

Lemma options_from_string_enumeration_order_witness :
  fst (framework_resolver (mkDefault CPU Float) "torch.sparse.CharTensor" initial)
  = fst (options_from_string (fun key => key)
           (rev framework_allCPUTypes)
           (framework_allCUDATypes ++ framework_allCUDATypes)
           (mkDefault CPU Float) "torch.sparse.CharTensor" initial).
Proof.
 
  apply (options_from_string_enumeration_order (fun key => key)
           framework_allCPUTypes framework_allCUDATypes
           (rev framework_allCPUTypes)
           (framework_allCUDATypes ++ framework_allCUDATypes)).
  - exact framework_allCPUTypes_family.
  - exact framework_allCUDATypes_family.
  - intros t. apply in_rev.
  - intros t. rewrite in_app_iff. tauto.
  - apply reachable_initial.
  - apply reachable_initial.
Defined.

Lemma reachable_statics_four_witness :
  reachable (fun key : Backend => key) framework_allCPUTypes framework_allCUDATypes
    (cpu_built framework_allCPUTypes (cuda_built framework_allCUDATypes initial)).
Proof.
  apply (proj2 (reachable_statics_four (fun key => key)
                  framework_allCPUTypes framework_allCUDATypes
                  framework_allCPUTypes_family framework_allCUDATypes_family
                  (mkDefault CPU Float) _)).
  right. right. right. reflexivity.
Defined.

Lemma declared_types_loop_In_witness :
  In (SparseCPU, Long) all_declared_types
  /\ ~ In (SparseCPU, Bool) all_declared_types.
Proof.
  split.
  - apply (proj2 (declared_types_loop_In [CPU; CUDA; SparseCPU; SparseCUDA]
                    AT_FORALL_SCALAR_TYPES_WITH_COMPLEX_EXCEPT_COMPLEX_HALF
                    SparseCPU Long)).
    split; [simpl; tauto|]. split; [simpl; tauto|].
    intros [H _]. discriminate H.
  - intros Hin.
    apply (proj1 (declared_types_loop_In [CPU; CUDA; SparseCPU; SparseCUDA]
                    AT_FORALL_SCALAR_TYPES_WITH_COMPLEX_EXCEPT_COMPLEX_HALF
                    SparseCPU Bool)) in Hin.
    destruct Hin as (_ & _ & Hskip). apply Hskip. auto.
Defined.
